(** * carnd_pid_control: the PID controller with Twiddle tuning

    A shallow embedding of [src/PidController.cpp] and of the argument
    checking of [src/main.cpp], with the properties the specification
    states about them.

    Numbers.  Every quantity of the program is a C++ [double].  It is
    modelled by Rocq's primitive [float], the IEEE 754 binary64 format
    with round-to-nearest-even: [a > b] is [b <? a], comparisons with a
    NaN are false, division by zero gives an infinity or a NaN.  The
    embedding assumes the compiler evaluates each operation in binary64
    (no extended precision, no fused multiply-add).

    Effects.  [PidController::Update] writes to [std::cout] and calls one
    of two callbacks.  Both are recorded, in order, in a list of [event]s
    returned with the new state of the object.

    Absent sources.  [Pid] and [Twiddler] are classes of the repository
    whose files are not available; they are modelled from the
    specification (sections 4.1 and 4.2) in the modules [Pid] and
    [Twiddler] below. *)

From Stdlib Require Import ZArith QArith Qcanon Floats Ascii String Lia.
From stdpp Require Import base list.

Set Warnings "-inexact-float".

(** ** Twiddler *)

Module Twiddler.

(** The arithmetic the tuner is written over.  The program stores the
    parameters in doubles; the specification speaks of real numbers.  The
    tuner is therefore written once, over this interface, and used at
    binary64 ([float_arith]) by the controller and at the rationals
    ([Qc_arith]) where the specification's exact arithmetic is meant. *)
Class Arith (T : Type) := {
  add : T -> T -> T;
  sub : T -> T -> T;
  mul : T -> T -> T;
  lt : T -> T -> bool;
  two : T;
  grow : T;     (* 1.1 *)
  shrink : T    (* 0.9 *)
}.

#[global] Instance float_arith : Arith float := {|
  add := PrimFloat.add;
  sub := PrimFloat.sub;
  mul := PrimFloat.mul;
  lt := PrimFloat.ltb;
  two := 2%float;
  grow := 1.1%float;
  shrink := 0.9%float
|}.

Definition Qc_ltb (a b : Qc) : bool :=
  match (a ?= b)%Qc with Lt => true | _ => false end.

#[global] Instance Qc_arith : Arith Qc := {|
  add := Qcplus;
  sub := Qcminus;
  mul := Qcmult;
  lt := Qc_ltb;
  two := Q2Qc 2;
  grow := Q2Qc (11 # 10);
  shrink := Q2Qc (9 # 10)
|}.

Section Tuner.
Context {T : Type} {A : Arith T}.

(** [{.p = kp, .dp = dkp}] in PidController.cpp, line 49. *)
Record Param := { p : T; dp : T }.

(** The two phases of the probe of one parameter. *)
Inductive Probe := TryPlus | TryMinus.

(** Modelled from the spec: the state of the class Twiddler (section 3,
    TunerState): the parameters, which of them is being perturbed, the
    phase of its probe, and the best score so far ([None] before the
    first submission). *)
Record t := {
  parameters_ : list Param;
  current_ : nat;
  probe_ : Probe;
  best_error_ : option T
}.

(** Modelled from the spec: the constructor of Twiddler, called at
    PidController.cpp, lines 48-49, with three (value, delta) pairs. *)
Definition New (parameters : list Param) : t :=
  {| parameters_ := parameters; current_ := 0; probe_ := TryPlus;
     best_error_ := None |}.

(** p += dp *)
Definition perturb_up (q : Param) : Param :=
  {| p := add (p q) (dp q); dp := dp q |}.

(** p -= 2 * dp: from the plus probe to one delta below the original. *)
Definition try_minus (q : Param) : Param :=
  {| p := sub (p q) (mul two (dp q)); dp := dp q |}.

(** dp *= 1.1 *)
Definition grow_delta (q : Param) : Param :=
  {| p := p q; dp := mul (dp q) grow |}.

(** p += dp; dp *= 0.9: the minus probe undone, the delta shrunk. *)
Definition restore_and_shrink (q : Param) : Param :=
  {| p := add (p q) (dp q); dp := mul (dp q) shrink |}.

(** 0 -> 1 -> 2 -> 0 ... *)
Definition next (i : nat) : nat := Nat.modulo (S i) 3.

(** Modelled from the spec: Twiddler::UpdateError, section 4.2, "submit
    score for current trial".  It returns the new state of the tuner and
    the parameters, as the call at PidController.cpp, line 121, reads
    them. *)
Definition UpdateError (tw : t) (error : T) : t * list Param :=
  let i := current_ tw in
  match best_error_ tw with
  | None =>
      (* 1. the very first call *)
      let ps := alter perturb_up 0 (parameters_ tw) in
      ({| parameters_ := ps; current_ := i; probe_ := TryPlus;
          best_error_ := Some error |}, ps)
  | Some best =>
      if lt error best then
        (* 2. improved *)
        let ps := alter perturb_up (next i)
                    (alter grow_delta i (parameters_ tw)) in
        ({| parameters_ := ps; current_ := next i; probe_ := TryPlus;
            best_error_ := Some error |}, ps)
      else
        match probe_ tw with
        | TryPlus =>
            (* not improved, the plus probe *)
            let ps := alter try_minus i (parameters_ tw) in
            ({| parameters_ := ps; current_ := i; probe_ := TryMinus;
                best_error_ := Some best |}, ps)
        | TryMinus =>
            (* not improved, the minus probe *)
            let ps := alter perturb_up (next i)
                        (alter restore_and_shrink i (parameters_ tw)) in
            ({| parameters_ := ps; current_ := next i; probe_ := TryPlus;
                best_error_ := Some best |}, ps)
        end
  end.

(** The state of the tuner after a sequence of submissions. *)
Definition submit (tw : t) (errors : list T) : t :=
  fold_left (fun tw e => fst (UpdateError tw e)) errors tw.

End Tuner.

Arguments Param T : clear implicits.
Arguments t T : clear implicits.

End Twiddler.

(** ** Pid *)

Module Pid.
#[local] Open Scope float_scope.

(** Modelled from the spec: the state of the class Pid (section 4.1):
    the three coefficients, the running sum of the errors and the
    previous error. *)
Record t := {
  kp_ : float;
  ki_ : float;
  kd_ : float;
  integral_ : float;
  previous_ : float
}.

(** Modelled from the spec: the constructor of Pid: "takes the three
    coefficients and resets all internal accumulators to zero". *)
Definition New (kp ki kd : float) : t :=
  {| kp_ := kp; ki_ := ki; kd_ := kd; integral_ := 0; previous_ := 0 |}.

(** Modelled from the spec: Pid::GetError, section 4.1:
    -(Kp*cte + Ki*integral_of_cte + Kd*(cte - previous_cte)), the
    integral being the sum of every error seen, this one included.  It
    returns the correction and the new state. *)
Definition GetError (pid : t) (cte : float) : float * t :=
  let integral := integral_ pid + cte in
  (- (kp_ pid * cte + ki_ pid * integral + kd_ pid * (cte - previous_ pid)),
   {| kp_ := kp_ pid; ki_ := ki_ pid; kd_ := kd_ pid;
      integral_ := integral; previous_ := cte |}).

(** The corrections of successive calls. *)
Fixpoint corrections (pid : t) (ctes : list float) : list float :=
  match ctes with
  | [] => []
  | cte :: rest =>
      let '(e, pid') := GetError pid cte in e :: corrections pid' rest
  end.

End Pid.

(** ** PidController (src/PidController.cpp) *)

Module PidController.
#[local] Open Scope float_scope.

(** *** Local constants (lines 11-18) *)

Definition kMinMeasurementDistance : float := 5.0.
Definition kMaxCteSkipPart : float := 0.025.
Definition kOffTrackPenalty : float := 1e+6.
Definition kMetersInMile : float := 1609.344.
Definition kFrameRate : float := 25.
Definition kSecondsPerFrame : float := 1 / kFrameRate.
Definition kMphToMps : float := kMetersInMile / (60 * 60).
Definition kSpeedToDistanceCoeff : float := kMphToMps / kFrameRate.

(** *** NormalizeControl (lines 23-31) *)

Definition NormalizeControl (value : float) : float :=
  if 1 <? value then 1
  else if value <? -1 then -1
  else value.

(** *** What a call leaves behind *)

(** The lines written to [std::cout], with the values they print. *)
Inductive message :=
| NewMaxCte (max_cte : float)
| GettingOffTrack (distance speed error : float)
| MaxCteIs (max_cte distance time average_speed : float)
| UsingFinalCoefficients
| TryingPidCoefficients (kp ki kd : float).

Inductive event :=
| Cout (m : message)
| OnControl (steering throttle : float)    (* on_control(steering, throttle) *)
| OnReset.                                 (* on_reset() *)

(** A call either completes, or stops the program: [twiddler_] is a null
    pointer when it is dereferenced, or the assertion of line 122
    fails. *)
Inductive fault := NullTwiddler | AssertionFailed.

Inductive result (X : Type) :=
| Ok (x : X)
| Fault (f : fault).
Arguments Ok {X} x.
Arguments Fault {X} f.

(** *** The object *)

Record t := {
  has_final_coefficients_ : bool;
  track_length_ : float;
  off_track_cte_ : float;
  distance_ : float;
  time_ : float;
  max_cte_ : float;
  pid_ : Pid.t;
  twiddler_ : option (Twiddler.t float)    (* a smart pointer, possibly null *)
}.

Definition set_has_final_coefficients_ (c : t) (b : bool) : t :=
  {| has_final_coefficients_ := b; track_length_ := track_length_ c;
     off_track_cte_ := off_track_cte_ c; distance_ := distance_ c;
     time_ := time_ c; max_cte_ := max_cte_ c; pid_ := pid_ c;
     twiddler_ := twiddler_ c |}.

Definition set_distance_ (c : t) (v : float) : t :=
  {| has_final_coefficients_ := has_final_coefficients_ c;
     track_length_ := track_length_ c; off_track_cte_ := off_track_cte_ c;
     distance_ := v; time_ := time_ c; max_cte_ := max_cte_ c;
     pid_ := pid_ c; twiddler_ := twiddler_ c |}.

Definition set_time_ (c : t) (v : float) : t :=
  {| has_final_coefficients_ := has_final_coefficients_ c;
     track_length_ := track_length_ c; off_track_cte_ := off_track_cte_ c;
     distance_ := distance_ c; time_ := v; max_cte_ := max_cte_ c;
     pid_ := pid_ c; twiddler_ := twiddler_ c |}.

Definition set_max_cte_ (c : t) (v : float) : t :=
  {| has_final_coefficients_ := has_final_coefficients_ c;
     track_length_ := track_length_ c; off_track_cte_ := off_track_cte_ c;
     distance_ := distance_ c; time_ := time_ c; max_cte_ := v;
     pid_ := pid_ c; twiddler_ := twiddler_ c |}.

Definition set_pid_ (c : t) (pid : Pid.t) : t :=
  {| has_final_coefficients_ := has_final_coefficients_ c;
     track_length_ := track_length_ c; off_track_cte_ := off_track_cte_ c;
     distance_ := distance_ c; time_ := time_ c; max_cte_ := max_cte_ c;
     pid_ := pid; twiddler_ := twiddler_ c |}.

Definition set_twiddler_ (c : t) (tw : Twiddler.t float) : t :=
  {| has_final_coefficients_ := has_final_coefficients_ c;
     track_length_ := track_length_ c; off_track_cte_ := off_track_cte_ c;
     distance_ := distance_ c; time_ := time_ c; max_cte_ := max_cte_ c;
     pid_ := pid_ c; twiddler_ := Some tw |}.

(** *** Constructors (lines 38-65); the line each prints is left out *)

(** PidController(kp, ki, kd, dkp, dki, dkd, track_length, off_track_cte) *)
Definition NewTuning (kp ki kd dkp dki dkd track_length off_track_cte : float)
  : t :=
  {| has_final_coefficients_ := false;
     track_length_ := track_length;
     off_track_cte_ := off_track_cte;
     distance_ := 0;
     time_ := 0;
     max_cte_ := 0;
     pid_ := Pid.New kp ki kd;
     twiddler_ :=
       Some (Twiddler.New [ {| Twiddler.p := kp; Twiddler.dp := dkp |};
                            {| Twiddler.p := ki; Twiddler.dp := dki |};
                            {| Twiddler.p := kd; Twiddler.dp := dkd |} ]) |}.

(** PidController(kp, ki, kd): the members not listed are
    value-initialised, [twiddler_] is left null. *)
Definition NewFinal (kp ki kd : float) : t :=
  {| has_final_coefficients_ := true;
     track_length_ := 0;
     off_track_cte_ := 0;
     distance_ := 0;
     time_ := 0;
     max_cte_ := 0;
     pid_ := Pid.New kp ki kd;
     twiddler_ := None |}.

(** *** UpdateTwiddlerAndReset (lines 120-132) *)

Definition UpdateTwiddlerAndReset (c : t) (error : float)
  : result (t * list event) :=
  match twiddler_ c with
  | None => Fault NullTwiddler
  | Some tw =>
      let '(tw, parameters) := Twiddler.UpdateError tw error in
      match parameters with
      | [q0; q1; q2] =>
          let kp := Twiddler.p q0 in
          let ki := Twiddler.p q1 in
          let kd := Twiddler.p q2 in
          let c := set_twiddler_ c tw in
          let c := set_pid_ c (Pid.New kp ki kd) in
          let c := set_distance_ c 0 in
          let c := set_time_ c 0 in
          let c := set_max_cte_ c 0 in
          Ok (c, [Cout (TryingPidCoefficients kp ki kd)])
      | _ => Fault AssertionFailed
      end
  end.

(** *** Update (lines 67-116) *)

(** Lines 110-115: the control command. *)
Definition Control (c : t) (cte speed : float) : t * list event :=
  let '(error, pid) := Pid.GetError (pid_ c) cte in
  let steering := NormalizeControl error in
  let throttle :=
    if 60 <? speed
    then NormalizeControl (1.0 - 4.0 * abs cte / off_track_cte_ c)
    else 1.0 in
  (set_pid_ c pid, [OnControl steering throttle]).

(** Lines 82-83: the vehicle is off the track. *)
Definition OffTrack (c : t) (cte speed : float) : bool :=
  (kMinMeasurementDistance <? distance_ c)
  && ((off_track_cte_ c <? abs cte) || (speed <? 1.0)).

(** Lines 74-79: the distance, the time and the maximal error of the
    episode.  The line printed shows the maximum before it is replaced. *)
Definition Measure (c : t) (cte speed : float) : t * list event :=
  let c := set_distance_ c (distance_ c + kSpeedToDistanceCoeff * speed) in
  let c := set_time_ c (time_ c + kSecondsPerFrame) in
  if (max_cte_ c <? cte)
     && (track_length_ c * kMaxCteSkipPart <? distance_ c)
  then (set_max_cte_ c cte, [Cout (NewMaxCte (max_cte_ c))])
  else (c, []).

Definition Update (c : t) (cte speed : float) : result (t * list event) :=
  if negb (has_final_coefficients_ c) then
    let '(c, out1) := Measure c cte speed in
    (* Detect getting off track *)
    if OffTrack c cte speed then
      let error := kOffTrackPenalty / distance_ c in
      let out2 := [Cout (GettingOffTrack (distance_ c) speed error)] in
      match UpdateTwiddlerAndReset c error with
      | Ok (c, out3) => Ok (c, out1 ++ out2 ++ out3 ++ [OnReset])
      | Fault f => Fault f
      end
    (* Detect completing the track *)
    else if track_length_ c <? distance_ c then
      let average_speed := distance_ c / (time_ c * kMphToMps) in
      let out2 :=
        [Cout (MaxCteIs (max_cte_ c) (distance_ c) (time_ c) average_speed)] in
      if max_cte_ c <? off_track_cte_ c / 2 then
        let c := set_has_final_coefficients_ c true in
        let '(c, out3) := Control c cte speed in
        Ok (c, out1 ++ out2 ++ [Cout UsingFinalCoefficients] ++ out3)
      else
        match UpdateTwiddlerAndReset c (max_cte_ c) with
        | Ok (c, out3) => Ok (c, out1 ++ out2 ++ out3 ++ [OnReset])
        | Fault f => Fault f
        end
    else
      let '(c, out3) := Control c cte speed in
      Ok (c, out1 ++ out3)
  else
    Ok (Control c cte speed).

(** *** Sequences of calls *)

(** The calls [Update(cte, speed)] for the frames of [frames], in order;
    the events of all of them. *)
Fixpoint Run (c : t) (frames : list (float * float))
  : result (t * list event) :=
  match frames with
  | [] => Ok (c, [])
  | (cte, speed) :: rest =>
      match Update c cte speed with
      | Ok (c, out) =>
          match Run c rest with
          | Ok (c, out') => Ok (c, out ++ out')
          | Fault f => Fault f
          end
      | Fault f => Fault f
      end
  end.

(** The objects a program can hold: built by a constructor, then
    updated. *)
Inductive reachable : t -> Prop :=
| reachable_tuning kp ki kd dkp dki dkd track_length off_track_cte :
    reachable (NewTuning kp ki kd dkp dki dkd track_length off_track_cte)
| reachable_final kp ki kd :
    reachable (NewFinal kp ki kd)
| reachable_update c cte speed c' out :
    reachable c -> Update c cte speed = Ok (c', out) -> reachable c'.

(** *** Reading a list of events *)

Definition is_callback (e : event) : bool :=
  match e with Cout _ => false | _ => true end.

(** The callbacks invoked, in order. *)
Definition callbacks (out : list event) : list event :=
  List.filter is_callback out.

(** The lines printed, in order. *)
Fixpoint printed (out : list event) : list message :=
  match out with
  | [] => []
  | Cout m :: rest => m :: printed rest
  | _ :: rest => printed rest
  end.

Definition is_off_track_message (m : message) : bool :=
  match m with GettingOffTrack _ _ _ => true | _ => false end.

Definition is_completion_message (m : message) : bool :=
  match m with MaxCteIs _ _ _ _ => true | _ => false end.

(** The branch of line 82 was taken. *)
Definition off_track_triggered (out : list event) : bool :=
  existsb is_off_track_message (printed out).

(** The branch of line 93 was taken. *)
Definition completion_triggered (out : list event) : bool :=
  existsb is_completion_message (printed out).

(** *** The fixed mode, as the specification reads it *)

(** Section 8, "idempotence of fixed mode": with final coefficients, a
    call repeated with the same (cte, speed) invokes on_control with the
    same steering and throttle. *)
Definition fixed_mode_idempotent : Prop :=
  forall (c c1 c2 : t) (cte speed : float) (out1 out2 : list event),
    reachable c ->
    has_final_coefficients_ c = true ->
    Update c cte speed = Ok (c1, out1) ->
    Update c1 cte speed = Ok (c2, out2) ->
    callbacks out1 = callbacks out2.

(** *** The invariant of the object *)

(** While the coefficients are being tuned, [twiddler_] points to a tuner
    with three parameters. *)
Definition tuner_ready (c : t) : Prop :=
  has_final_coefficients_ c = false ->
  exists tw,
    twiddler_ c = Some tw /\ length (Twiddler.parameters_ tw) = 3%nat.

End PidController.

(** ** Construction from the command line (src/main.cpp) *)

Module Main.
#[local] Open Scope float_scope.

(** Lines 16-27. *)
Definition kKp : float := 0.12.
Definition kKi : float := 1e-5.
Definition kKd : float := 4.0.
Definition kOffTrackCte : float := 5.0.
Definition kMinOffTrackCte : float := 0.1.
Definition kMinTrackLength : float := 50.0.

(** Why the process ends with [std::exit(EXIT_FAILURE)]: the message
    written to [std::cerr] before it. *)
Inductive failure :=
| UsageInstructions               (* line 98 *)
| OffTrackCteMayNotBeNegative     (* line 63 *)
| OffTrackCteTooSmall             (* line 66 *)
| TrackLengthMayNotBeNegative     (* line 128 *)
| TrackLengthTooSmall             (* line 132 *)
| InvalidNumberOfArguments        (* line 141 *)
| InvalidDataFormat.              (* line 146 *)

(** A step of the construction: a value, an exit of the process, or an
    exception of [std::stod] on its way to the handler of line 145. *)
Inductive outcome (X : Type) :=
| Done (x : X)
| Exit (f : failure)
| Thrown.
Arguments Done {X} x.
Arguments Exit {X} f.
Arguments Thrown {X}.

Definition bind {X Y : Type} (o : outcome X) (k : X -> outcome Y)
  : outcome Y :=
  match o with
  | Done x => k x
  | Exit f => Exit f
  | Thrown => Thrown
  end.

Notation "x <- o ;; k" := (bind o (fun x => k))
  (at level 100, o at next level, right associativity).

(** The constructor call that builds the controller, with its arguments
    in the order main.cpp writes them (lines 106, 114 and 136). *)
Inductive construction :=
| Construct4 (kp ki kd off_track_cte : float)
| Construct8 (kp ki kd off_track_cte dkp dki dkd track_length : float).

Section CommandLine.

(** [std::stod] on a whole argument: the double it reads, or [None] when
    it throws. *)
Variable stod : string -> option float.

(** std::stod(argv[i]) *)
Definition stod_arg (argv : list string) (i : nat) : outcome float :=
  match argv !! i with
  | Some s => match stod s with Some v => Done v | None => Thrown end
  | None => Thrown
  end.

(** ProcessBaseParameters (lines 53-70).  Its callers have five or nine
    arguments, so the assertion of line 57 holds. *)
Definition ProcessBaseParameters (argv : list string)
  : outcome (float * float * float * float) :=
  kp <- stod_arg argv 1 ;;
  ki <- stod_arg argv 2 ;;
  kd <- stod_arg argv 3 ;;
  off_track_cte <- stod_arg argv 4 ;;
  if off_track_cte <? 0 then Exit OffTrackCteMayNotBeNegative
  else if off_track_cte <? kMinOffTrackCte then Exit OffTrackCteTooSmall
  else Done (kp, ki, kd, off_track_cte).

(** The body of the [try] block of CreatePidController (lines 104-143). *)
Definition CreatePidController_try (argv : list string)
  : outcome construction :=
  match length argv with
  | 1 => Done (Construct4 kKp kKi kKd kOffTrackCte)
  | 5 =>
      base <- ProcessBaseParameters argv ;;
      let '(kp, ki, kd, off_track_cte) := base in
      Done (Construct4 kp ki kd off_track_cte)
  | 9 =>
      base <- ProcessBaseParameters argv ;;
      let '(kp, ki, kd, off_track_cte) := base in
      dkp <- stod_arg argv 5 ;;
      dki <- stod_arg argv 6 ;;
      dkd <- stod_arg argv 7 ;;
      track_length <- stod_arg argv 8 ;;
      if track_length <? 0 then Exit TrackLengthMayNotBeNegative
      else if track_length <? kMinTrackLength then Exit TrackLengthTooSmall
      else Done (Construct8 kp ki kd off_track_cte dkp dki dkd track_length)
  | _ => Exit InvalidNumberOfArguments
  end.

(** CreatePidController (lines 76-152): the process exits, or the
    controller is built by the call returned. *)
Definition CreatePidController (argv : list string)
  : failure + construction :=
  let argc := length argv in
  if negb (Nat.eqb argc 1) && negb (Nat.eqb argc 5) && negb (Nat.eqb argc 9)
  then inl UsageInstructions
  else
    match CreatePidController_try argv with
    | Done call => inr call
    | Exit f => inl f
    | Thrown => inl InvalidDataFormat
    end.

End CommandLine.

(** A reading of the decimal arguments used in the examples. *)
Definition stod_examples (s : string) : option float :=
  if String.eqb s "0.05" then Some 0.05
  else if String.eqb s "0.1" then Some 0.1
  else if String.eqb s "0.2" then Some 0.2
  else if String.eqb s "0.01" then Some 0.01
  else if String.eqb s "4" then Some 4
  else if String.eqb s "5" then Some 5
  else if String.eqb s "49.9" then Some 49.9
  else if String.eqb s "50" then Some 50
  else if String.eqb s "-1" then Some (-1)
  else None.

End Main.

(** ** The objects of the tests (test/TestPidController.cpp) *)

Module Examples.
#[local] Open Scope float_scope.
Import PidController.

(** The controller of the three tuning tests (lines 6-12 and 57-58): the
    coefficients 0.1, 1e-4, 4.0 with deltas 0.01, 1e-5, 0.1, a track of
    10 m, off the track at 5.0. *)
Definition tested : t := NewTuning 0.1 1e-4 4.0 0.01 1e-5 0.1 10 5.0.

Definition tested_tuner : Twiddler.t float :=
  Twiddler.New [ {| Twiddler.p := 0.1; Twiddler.dp := 0.01 |};
                 {| Twiddler.p := 1e-4; Twiddler.dp := 1e-5 |};
                 {| Twiddler.p := 4.0; Twiddler.dp := 0.1 |} ].

(** The same tuner over the rationals. *)
Definition rational_tuner : Twiddler.t Qc :=
  Twiddler.New
    [ {| Twiddler.p := Q2Qc (1 # 10); Twiddler.dp := Q2Qc (1 # 100) |};
      {| Twiddler.p := Q2Qc (1 # 10000); Twiddler.dp := Q2Qc (1 # 100000) |};
      {| Twiddler.p := Q2Qc 4; Twiddler.dp := Q2Qc (1 # 10) |} ].

(** The five frames each of these tests starts with. *)
Definition five_frames : list (float * float) := repeat (4.99, 100) 5.

(** The object after them (8.94 m into the episode). *)
Definition after_five_frames : t :=
  Eval vm_compute in
    match Run tested five_frames with
    | Ok (c, _) => c
    | Fault _ => tested
    end.

(** A controller on a track of 50 m, and one with final coefficients. *)
Definition tuning50 : t := NewTuning 0.1 1e-4 4.0 0.01 1e-5 0.1 50 5.0.
Definition integrating : t := NewFinal 0 0.25 0.

(** A lap of 50 m at 100 mph, one unit off the centre line: 28 frames. *)
Definition lap : list (float * float) := repeat (1, 100) 28.

(** The object after the lap, and what the lap printed and called. *)
Definition after_lap : t * list event :=
  Eval vm_compute in
    match Run tuning50 lap with
    | Ok r => r
    | Fault _ => (tuning50, [])
    end.

(** A command line that starts the tuning, and one with an off-track
    error that is too small. *)
Definition argv_tuning : list string :=
  ["pid"; "0.2"; "0.01"; "4"; "5"; "0.01"; "0.01"; "0.1"; "50"]%string.
Definition argv_small : list string :=
  ["pid"; "0.2"; "0.01"; "4"; "0.05"]%string.
Definition argv_short_track : list string :=
  ["pid"; "0.2"; "0.01"; "4"; "5"; "0.01"; "0.01"; "0.1"; "49.9"]%string.

End Examples.

(** ** The messages of the simulator (src/main.cpp) *)

Module Server.
Import PidController.
#[local] Open Scope string_scope.

(** *** std::string *)

(** [s.find_first_of(c)] for a single character; [None] is
    std::string::npos. *)
Fixpoint find_first_of (c : ascii) (s : string) : option nat :=
  match s with
  | EmptyString => None
  | String a rest =>
      if Ascii.eqb a c then Some 0%nat
      else option_map S (find_first_of c rest)
  end.

(** [s.find_last_of(c)] for a single character. *)
Fixpoint find_last_of (c : ascii) (s : string) : option nat :=
  match s with
  | EmptyString => None
  | String a rest =>
      match find_last_of c rest with
      | Some i => Some (S i)
      | None => if Ascii.eqb a c then Some 0%nat else None
      end
  end.

(** [std::string(data)] for a character array [data]: the characters
    before the first character 0. *)
Fixpoint c_string (data : string) : string :=
  match data with
  | EmptyString => EmptyString
  | String a rest =>
      if Ascii.eqb a Ascii.zero then EmptyString
      else String a (c_string rest)
  end.

(** The values of [size_t] are taken to have 64 bits. *)
Definition size_modulus : Z := 2 ^ 64.

(** [s.substr(pos, count)] for [pos <= s.size()]: the characters from
    [pos], [count] of them or as many as there are. *)
Definition substr (s : string) (pos : nat) (count : Z) : string :=
  substring pos
    (Z.to_nat (Z.min count (Z.of_nat (String.length s) - Z.of_nat pos))) s.

(** *** GetJsonData (lines 36-43) *)

(** [b2 - b1 + 1] is computed in [size_t], and wraps when the last "]"
    comes before the first "[". *)
Definition GetJsonData (s : string) : string :=
  let found_null := String.index 0 "null" s in
  let b1 := find_first_of "[" s in
  let b2 := find_last_of "]" s in
  match found_null, b1, b2 with
  | None, Some b1, Some b2 =>
      substr s b1 ((Z.of_nat b2 - Z.of_nat b1 + 1) mod size_modulus)
  | _, _, _ => ""
  end.

(** *** The handler of incoming messages (lines 182-211) *)

Section Handler.

(** The JSON library: the event name [j[0]] of the text parsed, and the
    string [j[1][key]]; [None] when the library throws. *)
Variable json_event : string -> option string.
Variable json_field : string -> string -> option string.

(** [std::stod]; [None] when it throws. *)
Variable stod : string -> option float.

(** [json_msg.dump()] of the object with the members steering_angle and
    throttle. *)
Variable json_dump : float -> float -> string.

(** The character 34, the double quote. *)
Definition quote : string := String "034"%char EmptyString.

(** ControlSimulator (lines 158-166): the message sent. *)
Definition ControlSimulator (steering throttle : float) : string :=
  "42[" ++ quote ++ "steer" ++ quote ++ "," ++ json_dump steering throttle
  ++ "]".

(** ResetSimulator (lines 170-173): the message sent. *)
Definition ResetSimulator : string :=
  "42[" ++ quote ++ "reset" ++ quote ++ ", {}]".

(** The reply to a message without data (line 207). *)
Definition manual : string :=
  "42[" ++ quote ++ "manual" ++ quote ++ ",{}]".

(** What the two callbacks bound at lines 202-203 send for the events of
    a call of Update. *)
Definition sent (out : list event) : list string :=
  flat_map (fun e => match e with
                     | OnControl steering throttle =>
                         [ControlSimulator steering throttle]
                     | OnReset => [ResetSimulator]
                     | Cout _ => []
                     end) out.

(** std::stod(j[1][key].get<std::string>()) *)
Definition stod_field (s key : string) : option float :=
  match json_field s key with
  | Some v => stod v
  | None => None
  end.

(** A message is handled: the controller afterwards and the messages
    sent; or an exception leaves the handler; or Update stops the
    program. *)
Inductive handled :=
| Handled (c : t) (replies : list string)
| Uncaught
| Stopped (f : fault).

(** The handler, for the controller [c]; [data] are the [length]
    characters received.  [std::string(data)] ends at the first
    character 0 of them; when there is none it reads on, to a character
    0 beyond the message, and [substr(0, length)] cuts it back to the
    message.  Either way [std::string(data).substr(0, length)] is
    [c_string data]. *)
Definition OnMessage (c : t) (data : string) : handled :=
  let length := String.length data in
  if (0 <? length)%nat && (2 <? length)%nat
     && match get 0 data with Some a => Ascii.eqb a "4" | None => false end
     && match get 1 data with Some a => Ascii.eqb a "2" | None => false end
  then
    let s := GetJsonData (c_string data) in
    if negb (String.eqb s "") then
      match json_event s with
      | None => Uncaught
      | Some event =>
          if String.eqb event "telemetry" then
            match stod_field s "cte" with
            | None => Uncaught
            | Some cte =>
                match stod_field s "speed" with
                | None => Uncaught
                | Some speed =>
                    match stod_field s "steering_angle" with
                    | None => Uncaught
                    | Some angle =>
                        match Update c cte speed with
                        | Ok (c, out) => Handled c (sent out)
                        | Fault f => Stopped f
                        end
                    end
                end
            end
          else Handled c []
      end
    else
      (* Manual driving *)
      Handled c [manual]
  else Handled c [].

End Handler.

(** *** A toy decoder for the examples *)

(** The text "[t]" stands for a telemetry event with cte 0.5 at 30 mph. *)
Definition toy_event (s : string) : option string :=
  if String.eqb s "[t]" then Some "telemetry" else Some "other".

Definition toy_field (s key : string) : option string := Some key.

Definition toy_stod (v : string) : option float :=
  if String.eqb v "cte" then Some 0.5%float
  else if String.eqb v "speed" then Some 30%float
  else if String.eqb v "steering_angle" then Some 0%float
  else None.

Definition toy_dump (steering throttle : float) : string := "{}".

(** A character 0 and what follows it in a message. *)
Definition after_zero : string := String Ascii.zero "null".

(** The telemetry event, with a character 0 and more behind it. *)
Definition message_t : string := "42[t]" ++ after_zero.

End Server.

(** ** More objects for the examples *)

Module MoreExamples.
#[local] Open Scope float_scope.
Import PidController.

(** The object 27 frames into the lap of [Examples.lap], one frame
    before the 50 m are covered. *)
Definition before_finish : t :=
  Eval vm_compute in
    match Run Examples.tuning50 (repeat (1, 100) 27) with
    | Ok (c, _) => c
    | Fault _ => Examples.tuning50
    end.

(** Command lines for the controller with final coefficients: a good
    one, and one whose off-track error reads as a NaN. *)
Definition argv_final : list string :=
  ["pid"; "0.2"; "0.01"; "4"; "5"]%string.
Definition argv_nan : list string :=
  ["pid"; "0.2"; "0.01"; "4"; "nan"]%string.
Definition argv_two : list string := ["pid"; "0.2"]%string.

(** [Main.stod_examples], and "nan" read as a NaN. *)
Definition stod_nan (s : string) : option float :=
  if String.eqb s "nan" then Some nan else Main.stod_examples s.

(** A call, or the object as it was when the call does not complete. *)
Definition updated (c : t) (cte speed : float) : t * list event :=
  match Update c cte speed with
  | Ok r => r
  | Fault _ => (c, [])
  end.

(** The first frame of the tests, their sixth frame when it is off the
    track, and the last frame of the lap. *)
Definition first_frame : t * list event :=
  Eval vm_compute in updated Examples.tested 4.99 100.
Definition sixth_frame_off : t * list event :=
  Eval vm_compute in updated Examples.after_five_frames 5.01 100.
Definition finish : t * list event :=
  Eval vm_compute in updated before_finish 1 100.

(** A tuning controller whose off-track error is a NaN, and a frame far
    from the centre line. *)
Definition tuning_nan : t := NewTuning 0.1 1e-4 4.0 0.01 1e-5 0.1 50 nan.

(** The same controller 5.36 m into the episode, and a fourth frame as
    far from the centre line. *)
Definition tuning_nan_past_5m : t :=
  Eval vm_compute in
    match Run tuning_nan (repeat (100, 100) 3) with
    | Ok (c, _) => c
    | Fault _ => tuning_nan
    end.
Definition far_frame_past_5m : t * list event :=
  Eval vm_compute in updated tuning_nan_past_5m 100 100.

End MoreExamples.

(** * Properties *)

(** ** Comparisons of doubles *)

Section FloatOrder.
#[local] Open Scope float_scope.

Lemma SFcompare_antisym (x y : spec_float) :
  SFcompare y x = option_map CompOpp (SFcompare x y).
Proof.
  destruct x as [sx| sx | | sx mx ex], y as [sy | sy | | sy my ey];
    try destruct sx; try destruct sy; simpl; try reflexivity.
  - rewrite (Z.compare_antisym ey ex).
    destruct (ey ?= ex)%Z; simpl; try reflexivity.
    now rewrite CompOpp_involutive, (Pos.compare_cont_antisym my mx Eq).
  - rewrite (Z.compare_antisym ey ex).
    destruct (ey ?= ex)%Z; simpl; try reflexivity.
    now rewrite (Pos.compare_cont_antisym mx my Eq).
Qed.

Lemma SFcompare_None (x y : spec_float) :
  SFcompare x y = None -> x = S754_nan \/ y = S754_nan.
Proof.
  destruct x as [sx| sx | | sx mx ex], y as [sy | sy | | sy my ey];
    simpl; auto; discriminate.
Qed.

Lemma is_nan_false (x : float) : is_nan x = false -> Prim2SF x <> S754_nan.
Proof.
  unfold is_nan. rewrite FloatAxioms.eqb_spec. unfold SFeqb. intros H E.
  rewrite E in H. discriminate.
Qed.

(** [x <= y] excludes [y < x]. *)
Lemma leb_ltb_false (x y : float) : (x <=? y) = true -> (y <? x) = false.
Proof.
  rewrite ltb_spec, leb_spec. unfold SFltb, SFleb.
  rewrite (SFcompare_antisym (Prim2SF x) (Prim2SF y)).
  destruct (SFcompare (Prim2SF x) (Prim2SF y)) as [[]|]; simpl; congruence.
Qed.

(** [x < y] excludes [y < x]. *)
Lemma ltb_asym (x y : float) : (x <? y) = true -> (y <? x) = false.
Proof.
  rewrite !ltb_spec. unfold SFltb.
  rewrite (SFcompare_antisym (Prim2SF x) (Prim2SF y)).
  destruct (SFcompare (Prim2SF x) (Prim2SF y)) as [[]|]; simpl; congruence.
Qed.

(** Two doubles that are not NaN are comparable. *)
Lemma not_ltb_leb (x y : float) :
  is_nan x = false -> is_nan y = false -> (x <? y) = false -> (y <=? x) = true.
Proof.
  intros Hx Hy. apply is_nan_false in Hx, Hy.
  rewrite ltb_spec, leb_spec. unfold SFltb, SFleb.
  rewrite (SFcompare_antisym (Prim2SF x) (Prim2SF y)).
  destruct (SFcompare (Prim2SF x) (Prim2SF y)) as [[]|] eqn:E;
    simpl; try congruence.
  apply SFcompare_None in E. tauto.
Qed.

(** What is below a negative number is not above a positive one. *)
Lemma ltb_negative_not_above_positive (a b x : float) :
  (a <? 0) = true -> (0 <? b) = true -> (x <? a) = true -> (b <? x) = false.
Proof.
  rewrite !ltb_spec. unfold SFltb.
  change (Prim2SF 0) with (S754_zero false).
  destruct (Prim2SF a) as [sa|sa| |sa ma ea],
    (Prim2SF b) as [sb|sb| |sb mb eb],
    (Prim2SF x) as [sx|sx| |sx mx ex];
    try destruct sa; try destruct sb; try destruct sx; simpl; intros;
    try discriminate; reflexivity.
Qed.

End FloatOrder.

(** ** NormalizeControl *)

Section Normalize.
#[local] Open Scope float_scope.
Import PidController.

(** A value that is not a NaN is brought into [-1, 1]. *)
Lemma NormalizeControl_range (value : float) :
  is_nan value = false ->
  (-1 <=? NormalizeControl value) = true
  /\ (NormalizeControl value <=? 1) = true.
Proof.
  intros Hnan. unfold NormalizeControl.
  destruct (1 <? value) eqn:H1; [split; reflexivity|].
  destruct (value <? -1) eqn:H2; [split; reflexivity|].
  split; apply not_ltb_leb; auto.
Qed.

(** What is above 1 becomes 1. *)
Lemma NormalizeControl_above (value : float) :
  (1 <? value) = true -> NormalizeControl value = 1.
Proof. intros H. unfold NormalizeControl. now rewrite H. Qed.

(** What is below -1 becomes -1. *)
Lemma NormalizeControl_below (value : float) :
  (value <? -1) = true -> NormalizeControl value = -1.
Proof.
  intros H. unfold NormalizeControl.
  now rewrite (ltb_negative_not_above_positive (-1) 1 value eq_refl eq_refl H),
    H.
Qed.

(** A NaN goes through unchanged. *)
Lemma NormalizeControl_nan (value : float) :
  is_nan value = true -> NormalizeControl value = value.
Proof.
  unfold is_nan, NormalizeControl. rewrite !ltb_spec, FloatAxioms.eqb_spec.
  unfold SFltb, SFeqb. intros H.
  destruct (Prim2SF value) eqn:E; simpl in *; try reflexivity;
    try discriminate.
  - destruct s; discriminate.
  - revert H. rewrite Z.compare_refl.
    destruct s; simpl; rewrite Pos.compare_cont_refl; discriminate.
Qed.

(** Values of [-1, 1] are left as they are. *)
Lemma NormalizeControl_inside (value : float) :
  (-1 <=? value) = true -> (value <=? 1) = true ->
  NormalizeControl value = value.
Proof.
  intros Hl Hu. unfold NormalizeControl.
  now rewrite (leb_ltb_false _ _ Hu), (leb_ltb_false _ _ Hl).
Qed.

End Normalize.

(** ** The tuner keeps its parameters *)

Section TunerFacts.
Context {T : Type} {A : Twiddler.Arith T}.
Import Twiddler.

Lemma UpdateError_returns (tw : Twiddler.t T) (error : T) :
  snd (UpdateError tw error) = parameters_ (fst (UpdateError tw error)).
Proof.
  unfold UpdateError.
  destruct (best_error_ tw); [destruct (lt error t0), (probe_ tw)|];
    reflexivity.
Qed.

Lemma UpdateError_length (tw : Twiddler.t T) (error : T) :
  length (snd (UpdateError tw error)) = length (parameters_ tw).
Proof.
  unfold UpdateError.
  destruct (best_error_ tw); [destruct (lt error t0), (probe_ tw)|];
    cbn [snd]; now rewrite ?length_alter.
Qed.

Lemma UpdateError_three (tw : Twiddler.t T) (error : T) :
  length (parameters_ tw) = 3 ->
  exists q0 q1 q2, snd (UpdateError tw error) = [q0; q1; q2].
Proof.
  intros H. rewrite <- (UpdateError_length tw error) in H.
  destruct (snd (UpdateError tw error)) as [|q0 [|q1 [|q2 [|q3 l]]]];
    try discriminate.
  now exists q0, q1, q2.
Qed.

End TunerFacts.

(** ** The bookkeeping of a frame *)

Section MeasureFacts.
#[local] Open Scope float_scope.
Import PidController.

Variables (c : PidController.t) (cte speed : float).

Lemma Measure_has_final_coefficients :
  has_final_coefficients_ (fst (Measure c cte speed))
  = has_final_coefficients_ c.
Proof. unfold Measure. now destruct (_ && _). Qed.

Lemma Measure_track_length :
  track_length_ (fst (Measure c cte speed)) = track_length_ c.
Proof. unfold Measure. now destruct (_ && _). Qed.

Lemma Measure_off_track_cte :
  off_track_cte_ (fst (Measure c cte speed)) = off_track_cte_ c.
Proof. unfold Measure. now destruct (_ && _). Qed.

Lemma Measure_pid : pid_ (fst (Measure c cte speed)) = pid_ c.
Proof. unfold Measure. now destruct (_ && _). Qed.

Lemma Measure_twiddler :
  twiddler_ (fst (Measure c cte speed)) = twiddler_ c.
Proof. unfold Measure. now destruct (_ && _). Qed.

Lemma Measure_distance :
  distance_ (fst (Measure c cte speed))
  = distance_ c + kSpeedToDistanceCoeff * speed.
Proof. unfold Measure. now destruct (_ && _). Qed.

Lemma Measure_time :
  time_ (fst (Measure c cte speed)) = time_ c + kSecondsPerFrame.
Proof. unfold Measure. now destruct (_ && _). Qed.

(** Line 76 compares the error itself, with its sign. *)
Lemma Measure_max_cte :
  max_cte_ (fst (Measure c cte speed))
  = if (max_cte_ c <? cte)
       && (track_length_ c * kMaxCteSkipPart
           <? distance_ c + kSpeedToDistanceCoeff * speed)
    then cte else max_cte_ c.
Proof.
  unfold Measure. cbn [set_time_ set_distance_ max_cte_ track_length_ distance_].
  now destruct (_ && _).
Qed.

Lemma Measure_fst :
  fst (Measure c cte speed)
  = {| has_final_coefficients_ := has_final_coefficients_ c;
       track_length_ := track_length_ c;
       off_track_cte_ := off_track_cte_ c;
       distance_ := distance_ c + kSpeedToDistanceCoeff * speed;
       time_ := time_ c + kSecondsPerFrame;
       max_cte_ :=
         if (max_cte_ c <? cte)
            && (track_length_ c * kMaxCteSkipPart
                <? distance_ c + kSpeedToDistanceCoeff * speed)
         then cte else max_cte_ c;
       pid_ := pid_ c;
       twiddler_ := twiddler_ c |}.
Proof.
  unfold Measure.
  cbn [set_time_ set_distance_ max_cte_ track_length_ distance_].
  now destruct (_ && _).
Qed.

Lemma Measure_callbacks : callbacks (snd (Measure c cte speed)) = [].
Proof. unfold Measure. now destruct (_ && _). Qed.

Lemma Measure_printed :
  off_track_triggered (snd (Measure c cte speed)) = false
  /\ completion_triggered (snd (Measure c cte speed)) = false.
Proof. unfold Measure. now destruct (_ && _). Qed.

End MeasureFacts.

(** ** Reading the events of a call *)

Section EventFacts.
Import PidController.

Lemma callbacks_app (out out' : list event) :
  callbacks (out ++ out') = callbacks out ++ callbacks out'.
Proof.
  unfold callbacks. induction out as [|e out IH]; simpl; [done|].
  destruct (is_callback e); simpl; now rewrite IH.
Qed.

Lemma callbacks_Cout (m : message) (out : list event) :
  callbacks (Cout m :: out) = callbacks out.
Proof. reflexivity. Qed.

Lemma printed_app (out out' : list event) :
  printed (out ++ out') = printed out ++ printed out'.
Proof.
  induction out as [|[m| |] out IH]; simpl; now rewrite ?IH.
Qed.

Lemma off_track_triggered_app (out out' : list event) :
  off_track_triggered (out ++ out')
  = off_track_triggered out || off_track_triggered out'.
Proof. unfold off_track_triggered. now rewrite printed_app, existsb_app. Qed.

Lemma completion_triggered_app (out out' : list event) :
  completion_triggered (out ++ out')
  = completion_triggered out || completion_triggered out'.
Proof. unfold completion_triggered. now rewrite printed_app, existsb_app. Qed.

End EventFacts.

(** ** One call of Update *)

Section UpdateFacts.
#[local] Open Scope float_scope.
Import PidController.

(** With a tuner of three parameters at hand, UpdateTwiddlerAndReset
    completes: the score goes to the tuner, the PID law is built anew
    from the three values returned, the counters are zero. *)
Lemma UpdateTwiddlerAndReset_ok (c : t) (tw : Twiddler.t float) (error : float) :
  twiddler_ c = Some tw ->
  length (Twiddler.parameters_ tw) = 3%nat ->
  exists q0 q1 q2,
    snd (Twiddler.UpdateError tw error) = [q0; q1; q2]
    /\ UpdateTwiddlerAndReset c error
       = Ok ({| has_final_coefficients_ := has_final_coefficients_ c;
                track_length_ := track_length_ c;
                off_track_cte_ := off_track_cte_ c;
                distance_ := 0;
                time_ := 0;
                max_cte_ := 0;
                pid_ := Pid.New (Twiddler.p q0) (Twiddler.p q1) (Twiddler.p q2);
                twiddler_ := Some (fst (Twiddler.UpdateError tw error)) |},
             [Cout (TryingPidCoefficients
                      (Twiddler.p q0) (Twiddler.p q1) (Twiddler.p q2))]).
Proof.
  intros Htw Hlen.
  destruct (UpdateError_three tw error Hlen) as (q0 & q1 & q2 & Hps).
  exists q0, q1, q2. split; [exact Hps|].
  unfold UpdateTwiddlerAndReset. rewrite Htw.
  destruct (Twiddler.UpdateError tw error) as [tw' ps]. simpl in Hps.
  now subst ps.
Qed.

(** In the fixed mode a call is the control command alone. *)
Lemma Update_final (c : t) (cte speed : float) :
  has_final_coefficients_ c = true ->
  Update c cte speed = Ok (Control c cte speed).
Proof. intros H. unfold Update. now rewrite H. Qed.

(** While tuning, a call starts with the bookkeeping. *)
Lemma Update_tuning (c : t) (cte speed : float) :
  has_final_coefficients_ c = false ->
  Update c cte speed
  = let m := fst (Measure c cte speed) in
    let out1 := snd (Measure c cte speed) in
    if OffTrack m cte speed then
      let error := kOffTrackPenalty / distance_ m in
      match UpdateTwiddlerAndReset m error with
      | Ok (c', out3) =>
          Ok (c', out1 ++ [Cout (GettingOffTrack (distance_ m) speed error)]
                   ++ out3 ++ [OnReset])
      | Fault f => Fault f
      end
    else if track_length_ m <? distance_ m then
      let out2 :=
        [Cout (MaxCteIs (max_cte_ m) (distance_ m) (time_ m)
                 (distance_ m / (time_ m * kMphToMps)))] in
      if max_cte_ m <? off_track_cte_ m / 2 then
        Ok (fst (Control (set_has_final_coefficients_ m true) cte speed),
            out1 ++ out2 ++ [Cout UsingFinalCoefficients]
            ++ snd (Control (set_has_final_coefficients_ m true) cte speed))
      else
        match UpdateTwiddlerAndReset m (max_cte_ m) with
        | Ok (c', out3) => Ok (c', out1 ++ out2 ++ out3 ++ [OnReset])
        | Fault f => Fault f
        end
    else
      Ok (fst (Control m cte speed), out1 ++ snd (Control m cte speed)).
Proof.
  intros H. unfold Update. rewrite H. cbn [negb].
  destruct (Measure c cte speed) as [m out1]. cbn [fst snd].
  destruct (OffTrack m cte speed); [reflexivity|].
  destruct (track_length_ m <? distance_ m); [|now destruct (Control m cte speed)].
  destruct (max_cte_ m <? off_track_cte_ m / 2); [|reflexivity].
  now destruct (Control _ cte speed).
Qed.

(** The control command: the correction of the PID law, and the
    throttle. *)
Lemma Control_spec (c : t) (cte speed : float) :
  Control c cte speed
  = (set_pid_ c (snd (Pid.GetError (pid_ c) cte)),
     [OnControl
        (NormalizeControl (fst (Pid.GetError (pid_ c) cte)))
        (if 60 <? speed
         then NormalizeControl (1 - 4 * abs cte / off_track_cte_ c)
         else 1)]).
Proof. unfold Control. now destruct (Pid.GetError (pid_ c) cte). Qed.

End UpdateFacts.

(** ** The episode ends: off the track, or the track completed *)

Section EpisodeEnd.
#[local] Open Scope float_scope.
Import PidController.

(** C1.  While tuning, a call takes the off-track branch exactly when the
    distance, this frame's part added, exceeds 5 and either |cte| exceeds
    off_track_cte_ or the speed is below 1.  The branch submits
    1e6 / distance to the tuner, builds the PID law anew from the three
    values the tuner returns, zeroes distance_, time_ and max_cte_, and
    invokes on_reset and no on_control. *)
Theorem off_track_branch (c : t) (cte speed : float) (tw : Twiddler.t float) :
  has_final_coefficients_ c = false ->
  twiddler_ c = Some tw ->
  length (Twiddler.parameters_ tw) = 3%nat ->
  let distance := distance_ c + kSpeedToDistanceCoeff * speed in
  let trigger :=
    (5 <? distance) && ((off_track_cte_ c <? abs cte) || (speed <? 1)) in
  exists c' out,
    Update c cte speed = Ok (c', out)
    /\ off_track_triggered out = trigger
    /\ (trigger = true ->
        let score := 1e6 / distance in
        exists q0 q1 q2,
          snd (Twiddler.UpdateError tw score) = [q0; q1; q2]
          /\ c' = {| has_final_coefficients_ := false;
                     track_length_ := track_length_ c;
                     off_track_cte_ := off_track_cte_ c;
                     distance_ := 0;
                     time_ := 0;
                     max_cte_ := 0;
                     pid_ := Pid.New (Twiddler.p q0) (Twiddler.p q1)
                               (Twiddler.p q2);
                     twiddler_ := Some (fst (Twiddler.UpdateError tw score)) |}
          /\ In (Cout (GettingOffTrack distance speed score)) out
          /\ completion_triggered out = false
          /\ callbacks out = [OnReset]).
Proof.
  intros Hf Htw Hlen distance trigger.
  rewrite (Update_tuning _ _ _ Hf). cbv zeta.
  pose proof (Measure_printed c cte speed) as [Hoff Hcompl].
  pose proof (Measure_callbacks c cte speed) as Hcb.
  pose proof (Measure_twiddler c cte speed) as Hmtw. rewrite Htw in Hmtw.
  assert (HO : OffTrack (fst (Measure c cte speed)) cte speed = trigger).
  { unfold OffTrack. now rewrite Measure_distance, Measure_off_track_cte. }
  rewrite HO.
  assert (Hd : distance_ (fst (Measure c cte speed)) = distance)
    by apply Measure_distance.
  destruct trigger eqn:Ht.
  - destruct (UpdateTwiddlerAndReset_ok _ tw (1e6 / distance) Hmtw Hlen)
      as (q0 & q1 & q2 & Hps & Hreset).
    rewrite Hd. change kOffTrackPenalty with 1e6. rewrite Hreset.
    eexists _, _. split; [reflexivity|].
    rewrite !off_track_triggered_app, !completion_triggered_app,
      !callbacks_app, Hoff, Hcompl, Hcb.
    split; [reflexivity|]. intros _. exists q0, q1, q2.
    rewrite Measure_has_final_coefficients, Measure_track_length,
      Measure_off_track_cte, Hf.
    repeat split; try reflexivity; try assumption.
    apply in_or_app. right. now left.
  - destruct (track_length_ _ <? distance_ _).
    + destruct (max_cte_ _ <? off_track_cte_ _ / 2).
      * eexists _, _. split; [reflexivity|]. split; [|discriminate].
        rewrite Control_spec, !off_track_triggered_app, Hoff. reflexivity.
      * destruct (UpdateTwiddlerAndReset_ok _ tw
                    (max_cte_ (fst (Measure c cte speed))) Hmtw Hlen)
          as (q0 & q1 & q2 & Hps & Hreset).
        rewrite Hreset. eexists _, _. split; [reflexivity|].
        split; [|discriminate].
        rewrite !off_track_triggered_app, Hoff. reflexivity.
    + eexists _, _. split; [reflexivity|]. split; [|discriminate].
      rewrite Control_spec, !off_track_triggered_app, Hoff. reflexivity.
Qed.

(** C2.  While tuning, the completion branch is taken exactly on the
    frames where the off-track branch is not and the distance exceeds
    track_length_.  With the recorded max_cte_ below off_track_cte_ / 2
    the object takes its coefficients as final, the tuner is left as it
    was, and on_control is invoked in the same call; otherwise max_cte_
    goes to the tuner, the PID law is built anew, the counters are zeroed
    and on_reset is invoked. *)
Theorem completion_branch (c : t) (cte speed : float) (tw : Twiddler.t float) :
  has_final_coefficients_ c = false ->
  twiddler_ c = Some tw ->
  length (Twiddler.parameters_ tw) = 3%nat ->
  let distance := distance_ c + kSpeedToDistanceCoeff * speed in
  let max_cte :=
    if (max_cte_ c <? cte) && (track_length_ c * 0.025 <? distance)
    then cte else max_cte_ c in
  let off_track :=
    (5 <? distance) && ((off_track_cte_ c <? abs cte) || (speed <? 1)) in
  let complete := negb off_track && (track_length_ c <? distance) in
  exists c' out,
    Update c cte speed = Ok (c', out)
    /\ completion_triggered out = complete
    /\ (complete = true ->
        if max_cte <? off_track_cte_ c / 2 then
          c' = {| has_final_coefficients_ := true;
                  track_length_ := track_length_ c;
                  off_track_cte_ := off_track_cte_ c;
                  distance_ := distance;
                  time_ := time_ c + kSecondsPerFrame;
                  max_cte_ := max_cte;
                  pid_ := snd (Pid.GetError (pid_ c) cte);
                  twiddler_ := Some tw |}
          /\ callbacks out
             = [OnControl
                  (NormalizeControl (fst (Pid.GetError (pid_ c) cte)))
                  (if 60 <? speed
                   then NormalizeControl (1 - 4 * abs cte / off_track_cte_ c)
                   else 1)]
        else
          exists q0 q1 q2,
            snd (Twiddler.UpdateError tw max_cte) = [q0; q1; q2]
            /\ c' = {| has_final_coefficients_ := false;
                       track_length_ := track_length_ c;
                       off_track_cte_ := off_track_cte_ c;
                       distance_ := 0;
                       time_ := 0;
                       max_cte_ := 0;
                       pid_ := Pid.New (Twiddler.p q0) (Twiddler.p q1)
                                 (Twiddler.p q2);
                       twiddler_ :=
                         Some (fst (Twiddler.UpdateError tw max_cte)) |}
            /\ callbacks out = [OnReset]).
Proof.
  intros Hf Htw Hlen distance max_cte off_track complete.
  rewrite (Update_tuning _ _ _ Hf). cbv zeta.
  pose proof (Measure_printed c cte speed) as [_ Hcompl].
  pose proof (Measure_callbacks c cte speed) as Hcb.
  set (out1 := snd (Measure c cte speed)) in *.
  rewrite Measure_fst, Htw.
  set (m := {| has_final_coefficients_ := _ |}).
  change (OffTrack m cte speed) with off_track.
  change (track_length_ m <? distance_ m) with (track_length_ c <? distance).
  change (max_cte_ m) with max_cte.
  change (off_track_cte_ m) with (off_track_cte_ c).
  subst complete.
  destruct off_track.
  - destruct (UpdateTwiddlerAndReset_ok m tw
                (kOffTrackPenalty / distance_ m) eq_refl Hlen)
      as (q0 & q1 & q2 & Hps & Hreset).
    rewrite Hreset. eexists _, _. split; [reflexivity|].
    split; [|discriminate].
    rewrite !completion_triggered_app, Hcompl. reflexivity.
  - cbn [negb andb]. destruct (track_length_ c <? distance).
    + destruct (max_cte <? off_track_cte_ c / 2).
      * eexists _, _. split; [reflexivity|].
        rewrite Control_spec. cbn [fst snd].
        rewrite !completion_triggered_app, !callbacks_app, Hcompl, Hcb.
        split; [reflexivity|]. intros _. split; [|reflexivity].
        unfold m. now rewrite Hf.
      * destruct (UpdateTwiddlerAndReset_ok m tw max_cte eq_refl Hlen)
          as (q0 & q1 & q2 & Hps & Hreset).
        rewrite Hreset. eexists _, _. split; [reflexivity|].
        rewrite !completion_triggered_app, !callbacks_app, Hcompl, Hcb.
        split; [reflexivity|]. intros _. exists q0, q1, q2.
        repeat split; try assumption. unfold m. cbn. now rewrite Hf.
    + eexists _, _. split; [reflexivity|]. split; [|discriminate].
      rewrite Control_spec, !completion_triggered_app, Hcompl. reflexivity.
Qed.

End EpisodeEnd.

(** ** Every call completes, with one callback *)

Section OneCallback.
#[local] Open Scope float_scope.
Import PidController.

Lemma tuner_ready_NewTuning kp ki kd dkp dki dkd track_length off_track_cte :
  tuner_ready (NewTuning kp ki kd dkp dki dkd track_length off_track_cte).
Proof. intros _. eexists. split; reflexivity. Qed.

Lemma tuner_ready_NewFinal kp ki kd : tuner_ready (NewFinal kp ki kd).
Proof. intros H. discriminate. Qed.

(** UpdateTwiddlerAndReset leaves a tuner of three parameters. *)
Lemma UpdateTwiddlerAndReset_ready (c : t) (error : float) :
  tuner_ready c -> has_final_coefficients_ c = false ->
  exists c' kp ki kd,
    UpdateTwiddlerAndReset c error
    = Ok (c', [Cout (TryingPidCoefficients kp ki kd)])
    /\ tuner_ready c'.
Proof.
  intros Hr Hf. destruct (Hr Hf) as (tw & Htw & Hlen).
  destruct (UpdateTwiddlerAndReset_ok c tw error Htw Hlen)
    as (q0 & q1 & q2 & Hps & ->).
  eexists _, _, _, _. split; [reflexivity|].
  intros _. eexists. split; [reflexivity|].
  now rewrite <- UpdateError_returns, Hps.
Qed.

(** A call on an object that satisfies the invariant completes, keeps the
    invariant, and invokes one callback. *)
Lemma Update_outcome (c : t) (cte speed : float) :
  tuner_ready c ->
  exists c' out,
    Update c cte speed = Ok (c', out)
    /\ tuner_ready c'
    /\ ((exists steering throttle,
           callbacks out = [OnControl steering throttle])
        \/ callbacks out = [OnReset])
    /\ (has_final_coefficients_ c = true ->
        exists steering throttle, out = [OnControl steering throttle]).
Proof.
  intros Hr. destruct (has_final_coefficients_ c) eqn:Hf.
  - rewrite (Update_final _ _ _ Hf), Control_spec.
    eexists _, _. split; [reflexivity|]. split; [|split; eauto].
    intros H. cbn in H. congruence.
  - rewrite (Update_tuning _ _ _ Hf). cbv zeta.
    pose proof (Measure_callbacks c cte speed) as Hcb.
    assert (Hrm : tuner_ready (fst (Measure c cte speed))).
    { intros _. rewrite Measure_twiddler. auto. }
    assert (Hfm : has_final_coefficients_ (fst (Measure c cte speed)) = false)
      by now rewrite Measure_has_final_coefficients.
    destruct (OffTrack _ cte speed).
    { destruct (UpdateTwiddlerAndReset_ready _
                  (kOffTrackPenalty / distance_ (fst (Measure c cte speed)))
                  Hrm Hfm) as (c' & kp & ki & kd & -> & Hr').
      eexists _, _. split; [reflexivity|]. split; [exact Hr'|].
      split; [|discriminate]. right.
      now rewrite !callbacks_app, Hcb. }
    destruct (track_length_ _ <? distance_ _).
    + destruct (max_cte_ _ <? off_track_cte_ _ / 2).
      * eexists _, _. split; [reflexivity|].
        rewrite Control_spec. cbn [fst snd].
        split; [intros H; cbn in H; discriminate|].
        split; [|discriminate]. left.
        rewrite !callbacks_app, Hcb. cbn. eauto.
      * destruct (UpdateTwiddlerAndReset_ready _
                    (max_cte_ (fst (Measure c cte speed))) Hrm Hfm)
          as (c' & kp & ki & kd & -> & Hr').
        eexists _, _. split; [reflexivity|]. split; [exact Hr'|].
        split; [|discriminate]. right.
        now rewrite !callbacks_app, Hcb.
    + eexists _, _. split; [reflexivity|].
      rewrite Control_spec. cbn [fst snd].
      split; [|split; [|discriminate]].
      * intros _. cbn. auto.
      * left. rewrite !callbacks_app, Hcb. cbn. eauto.
Qed.

Lemma reachable_tuner_ready (c : t) : reachable c -> tuner_ready c.
Proof.
  induction 1 as [| |c cte speed c' out _ IH Hup].
  - apply tuner_ready_NewTuning.
  - apply tuner_ready_NewFinal.
  - destruct (Update_outcome c cte speed IH) as (c2 & out2 & Hup2 & Hr & _).
    rewrite Hup in Hup2. now injection Hup2 as -> ->.
Qed.

(** C3.  Every call of Update, on an object built by a constructor and
    updated since, completes and invokes exactly one callback: on_control
    once or on_reset once.  With final coefficients it is on_control. *)
Theorem one_callback_per_update (c : t) (cte speed : float) :
  reachable c ->
  exists c' out,
    Update c cte speed = Ok (c', out)
    /\ ((exists steering throttle,
           callbacks out = [OnControl steering throttle])
        \/ callbacks out = [OnReset])
    /\ (has_final_coefficients_ c = true ->
        exists steering throttle,
          callbacks out = [OnControl steering throttle]).
Proof.
  intros Hreach.
  destruct (Update_outcome c cte speed (reachable_tuner_ready c Hreach))
    as (c' & out & Hup & _ & Hone & Hfinal).
  exists c', out. split; [exact Hup|]. split; [exact Hone|].
  intros Hf. destruct (Hfinal Hf) as (steering & throttle & ->).
  now exists steering, throttle.
Qed.

End OneCallback.

(** ** Sequences of calls; the fixed mode *)

Section FixedMode.
#[local] Open Scope float_scope.
Import PidController.

Lemma Run_app (c : t) (frames frames' : list (float * float)) :
  Run c (frames ++ frames')
  = match Run c frames with
    | Ok (c1, out1) =>
        match Run c1 frames' with
        | Ok (c2, out2) => Ok (c2, out1 ++ out2)
        | Fault f => Fault f
        end
    | Fault f => Fault f
    end.
Proof.
  revert c. induction frames as [|[cte speed] frames IH]; intros c.
  - cbn. now destruct (Run c frames') as [[c2 out2]|].
  - cbn. destruct (Update c cte speed) as [[c1 out1]|]; [|reflexivity].
    rewrite IH. destruct (Run c1 frames) as [[c2 out2]|]; [|reflexivity].
    destruct (Run c2 frames') as [[c3 out3]|]; [|reflexivity].
    now rewrite app_assoc.
Qed.

(** With final coefficients, calls change the PID law alone and invoke
    on_control alone. *)
Lemma Run_final (c : t) (frames : list (float * float)) :
  has_final_coefficients_ c = true ->
  exists c' out,
    Run c frames = Ok (c', out)
    /\ has_final_coefficients_ c' = true
    /\ track_length_ c' = track_length_ c
    /\ off_track_cte_ c' = off_track_cte_ c
    /\ distance_ c' = distance_ c
    /\ time_ c' = time_ c
    /\ max_cte_ c' = max_cte_ c
    /\ twiddler_ c' = twiddler_ c
    /\ Forall (fun e => exists steering throttle,
                 e = OnControl steering throttle) out
    /\ length out = length frames.
Proof.
  revert c. induction frames as [|[cte speed] frames IH]; intros c Hf.
  - exists c, []. cbn. repeat split; auto.
  - cbn [Run]. rewrite (Update_final _ _ _ Hf), Control_spec.
    destruct (IH (set_pid_ c (snd (Pid.GetError (pid_ c) cte))) Hf)
      as (c' & out & -> & H1 & H2 & H3 & H4 & H5 & H6 & H7 & H8 & H9).
    eexists _, _. split; [reflexivity|].
    repeat split; try assumption.
    + constructor; [eauto|exact H8].
    + cbn. now rewrite H9.
Qed.

(** C4.  Once a sequence of calls has left the object with final
    coefficients, whatever calls follow leave it so: distance_, time_ and
    max_cte_ stay as they are, the tuner is not touched, nothing is
    printed and every callback is on_control. *)
Theorem final_coefficients_stay
  (c c1 : t) (frames frames' : list (float * float)) (out1 : list event) :
  Run c frames = Ok (c1, out1) ->
  has_final_coefficients_ c1 = true ->
  exists c2 out2,
    Run c (frames ++ frames') = Ok (c2, out1 ++ out2)
    /\ has_final_coefficients_ c2 = true
    /\ distance_ c2 = distance_ c1
    /\ time_ c2 = time_ c1
    /\ max_cte_ c2 = max_cte_ c1
    /\ twiddler_ c2 = twiddler_ c1
    /\ printed out2 = []
    /\ Forall (fun e => exists steering throttle,
                 e = OnControl steering throttle) out2
    /\ length out2 = length frames'.
Proof.
  intros Hrun Hf. rewrite Run_app, Hrun.
  destruct (Run_final c1 frames' Hf)
    as (c2 & out2 & -> & H1 & _ & _ & H4 & H5 & H6 & H7 & H8 & H9).
  exists c2, out2. repeat split; try assumption.
  clear -H8. induction H8 as [|e out (s & th & ->) _ IH]; [reflexivity|].
  exact IH.
Qed.

End FixedMode.

(** ** The control command *)

Section ControlCommand.
#[local] Open Scope float_scope.
Import PidController.

Lemma In_callbacks (e : event) (out : list event) :
  In e out -> is_callback e = true -> In e (callbacks out).
Proof. intros Hin He. apply filter_In. now split. Qed.

Lemma UpdateTwiddlerAndReset_callbacks (c c' : t) (error : float) out :
  UpdateTwiddlerAndReset c error = Ok (c', out) -> callbacks out = [].
Proof.
  unfold UpdateTwiddlerAndReset. destruct (twiddler_ c) as [tw|]; [|discriminate].
  destruct (Twiddler.UpdateError tw error) as [tw' ps].
  destruct ps as [|q0 [|q1 [|q2 [|q3 ps]]]]; try discriminate.
  now intros [= <- <-].
Qed.

(** The callbacks of a call that completes: on_reset, or on_control with
    the correction of the PID law and the throttle of lines 111-114. *)
Lemma Update_callbacks (c c' : t) (cte speed : float) (out : list event) :
  Update c cte speed = Ok (c', out) ->
  callbacks out = [OnReset]
  \/ callbacks out
     = [OnControl
          (NormalizeControl (fst (Pid.GetError (pid_ c) cte)))
          (if 60 <? speed
           then NormalizeControl (1 - 4 * abs cte / off_track_cte_ c)
           else 1)].
Proof.
  destruct (has_final_coefficients_ c) eqn:Hf.
  - rewrite (Update_final _ _ _ Hf), Control_spec. intros [= <- <-]. now right.
  - rewrite (Update_tuning _ _ _ Hf). cbv zeta.
    pose proof (Measure_callbacks c cte speed) as Hcb.
    destruct (OffTrack _ cte speed).
    { destruct (UpdateTwiddlerAndReset _ _) as [[c3 out3]|] eqn:Hreset;
        [|discriminate].
      apply UpdateTwiddlerAndReset_callbacks in Hreset.
      intros [= <- <-]. left.
      now rewrite callbacks_app, Hcb, callbacks_Cout, callbacks_app, Hreset. }
    destruct (track_length_ _ <? distance_ _).
    + destruct (max_cte_ _ <? off_track_cte_ _ / 2).
      * rewrite Control_spec. cbn [fst snd]. intros [= <- <-]. right.
        rewrite !callbacks_app, Hcb. cbn.
        now rewrite Measure_pid, Measure_off_track_cte.
      * destruct (UpdateTwiddlerAndReset _ _) as [[c3 out3]|] eqn:Hreset;
          [|discriminate].
        apply UpdateTwiddlerAndReset_callbacks in Hreset.
        intros [= <- <-]. left.
        now rewrite callbacks_app, Hcb, callbacks_Cout, callbacks_app, Hreset.
    + rewrite Control_spec. cbn [fst snd]. intros [= <- <-]. right.
      rewrite !callbacks_app, Hcb. cbn.
      now rewrite Measure_pid, Measure_off_track_cte.
Qed.

Lemma NormalizeControl_not_nan (value : float) :
  is_nan (NormalizeControl value) = false -> is_nan value = false.
Proof.
  intros H. destruct (is_nan value) eqn:E; [|reflexivity].
  now rewrite (NormalizeControl_nan _ E), E in H.
Qed.

(** C6.  Whenever a call invokes on_control, while tuning or with final
    coefficients, the steering is the correction of the PID law clamped
    to [-1, 1]: 1 when the correction is above 1, -1 when it is below
    -1, the correction itself when it is in [-1, 1].  The throttle is 1
    when speed <= 60, and 1 - 4 |cte| / off_track_cte_ clamped in the
    same way when speed > 60.  The clamp is NormalizeControl; steering
    and throttle are in [-1, 1] unless they are NaN. *)
Theorem control_command
  (c c' : t) (cte speed : float) (out : list event) (steering throttle : float) :
  Update c cte speed = Ok (c', out) ->
  In (OnControl steering throttle) out ->
  let correction := fst (Pid.GetError (pid_ c) cte) in
  let drive := 1 - 4 * abs cte / off_track_cte_ c in
  steering = NormalizeControl correction
  /\ ((speed <=? 60) = true -> throttle = 1)
  /\ ((60 <? speed) = true -> throttle = NormalizeControl drive)
  /\ (is_nan steering = false ->
      (-1 <=? steering) = true /\ (steering <=? 1) = true)
  /\ (is_nan throttle = false ->
      (-1 <=? throttle) = true /\ (throttle <=? 1) = true)
  /\ ((1 <? correction) = true -> steering = 1)
  /\ ((correction <? -1) = true -> steering = -1)
  /\ ((-1 <=? correction) = true -> (correction <=? 1) = true ->
      steering = correction)
  /\ ((60 <? speed) = true ->
      ((1 <? drive) = true -> throttle = 1)
      /\ ((drive <? -1) = true -> throttle = -1)
      /\ ((-1 <=? drive) = true -> (drive <=? 1) = true ->
          throttle = drive)).
Proof.
  intros Hup Hin correction drive. apply In_callbacks in Hin; [|reflexivity].
  destruct (Update_callbacks _ _ _ _ _ Hup) as [Hcb|Hcb]; rewrite Hcb in Hin.
  { destruct Hin as [[=]|[]]. }
  destruct Hin as [[= <- <-]|[]]. fold correction drive.
  split; [reflexivity|]. repeat match goal with |- _ /\ _ => split end.
  - intros Hle. now rewrite (leb_ltb_false _ _ Hle).
  - now intros ->.
  - intros Hnan. apply NormalizeControl_range.
    now apply NormalizeControl_not_nan.
  - destruct (60 <? speed); [|now intros _].
    intros Hnan. apply NormalizeControl_range.
    now apply NormalizeControl_not_nan.
  - apply NormalizeControl_above.
  - apply NormalizeControl_below.
  - apply NormalizeControl_inside.
  - intros ->. split; [|split].
    + apply NormalizeControl_above.
    + apply NormalizeControl_below.
    + apply NormalizeControl_inside.
Qed.

End ControlCommand.

(** ** The tuner backtracks *)

Section Backtrack.
Import Twiddler.

Lemma Qc_ltb_asym (a b : Qc) : Qc_ltb a b = true -> Qc_ltb b a = false.
Proof.
  unfold Qc_ltb, Qccompare. rewrite <- (Qcompare_antisym a b).
  destruct (a ?= b)%Q; simpl; congruence.
Qed.

Lemma Qc_two : Q2Qc 2 = (1 + 1)%Qc.
Proof. apply Qc_is_canon. reflexivity. Qed.

(** The trace of the three submissions, over any arithmetic in which a
    worse score is not also a better one. *)
Lemma backtrack_trace {T : Type} {A : Arith T} (q0 q1 q2 : Param T) (e0 e1 e2 : T) :
  lt e1 e0 = false -> lt e2 e0 = false ->
  let tw2 := submit (New [q0; q1; q2]) [e0; e1] in
  let tw3 := submit (New [q0; q1; q2]) [e0; e1; e2] in
  tw2 = {| parameters_ :=
             [ {| p := sub (add (p q0) (dp q0)) (mul two (dp q0));
                  dp := dp q0 |}; q1; q2 ];
           current_ := 0; probe_ := TryMinus; best_error_ := Some e0 |}
  /\ tw3 = {| parameters_ :=
               [ {| p := add (sub (add (p q0) (dp q0)) (mul two (dp q0)))
                           (dp q0);
                    dp := mul (dp q0) shrink |};
                 {| p := add (p q1) (dp q1); dp := dp q1 |}; q2 ];
             current_ := 1; probe_ := TryPlus; best_error_ := Some e0 |}.
Proof.
  intros H1 H2. unfold submit, UpdateError. cbn. rewrite H1. cbn.
  rewrite H2. cbn. split; reflexivity.
Qed.

Lemma Qc_ltb_lt (a b : Qc) : (a < b)%Qc -> Qc_ltb a b = true.
Proof. intros H. unfold Qc_ltb. now rewrite (proj1 (Qclt_alt a b) H). Qed.

(** C7.  The gains of the specification are real numbers; the tuner is
    taken here over the rationals.  After the first submission ever, a
    worse score leaves the parameter that is probed, parameter 0, with
    its delta as it was and its value exactly one delta below the
    original value.  A second worse score restores the original value,
    multiplies the delta of that parameter by 0.9 and moves on to the
    next parameter. *)
Theorem tuner_backtracks (q0 q1 q2 : Param Qc) (e0 e1 e2 : Qc) :
  (e0 < e1)%Qc -> (e0 < e2)%Qc ->
  let tw2 := submit (New [q0; q1; q2]) [e0; e1] in
  let tw3 := submit (New [q0; q1; q2]) [e0; e1; e2] in
  current_ tw2 = 0%nat
  /\ parameters_ tw2 !! 0%nat
     = Some {| p := (p q0 - dp q0)%Qc; dp := dp q0 |}
  /\ parameters_ tw3 !! 0%nat
     = Some {| p := p q0; dp := (dp q0 * Q2Qc (9 # 10))%Qc |}
  /\ current_ tw3 = 1%nat.
Proof.
  intros H1 H2.
  destruct (backtrack_trace (A := Qc_arith) q0 q1 q2 e0 e1 e2
              (Qc_ltb_asym _ _ (Qc_ltb_lt _ _ H1))
              (Qc_ltb_asym _ _ (Qc_ltb_lt _ _ H2))) as [-> ->].
  cbn. rewrite Qc_two. repeat split.
  - do 2 f_equal. ring.
  - do 2 f_equal. ring.
Qed.

End Backtrack.

(** ** Repeated frames in the fixed mode *)

Section Repeated.
#[local] Open Scope float_scope.
Import PidController.

(** C8, as amended.  With final coefficients, n calls with the same
    (cte, speed) invoke on_control n times and nothing else.  The
    throttle is the same in all of them.  The steering of the i-th call
    is NormalizeControl of the i-th correction of the PID law, which
    depends on the sum of the errors and on the previous error the law
    keeps: on pid_ and cte alone, and on no counter of the episode. *)
Theorem fixed_mode_repeated (c : t) (cte speed : float) (n : nat) :
  has_final_coefficients_ c = true ->
  exists c',
    Run c (repeat (cte, speed) n)
    = Ok (c',
          map (fun correction =>
                 OnControl
                   (NormalizeControl correction)
                   (if 60 <? speed
                    then NormalizeControl (1 - 4 * abs cte / off_track_cte_ c)
                    else 1))
              (Pid.corrections (pid_ c) (repeat cte n))).
Proof.
  revert c. induction n as [|n IH]; intros c Hf.
  - now exists c.
  - cbn [repeat Run Pid.corrections].
    rewrite (Update_final _ _ _ Hf), Control_spec.
    destruct (Pid.GetError (pid_ c) cte) as [correction pid'].
    cbn [fst snd].
    destruct (IH (set_pid_ c pid') Hf) as (c' & ->).
    now exists c'.
Qed.

(** C8, as stated, fails: the PID law of a controller with Ki = 0.25
    sums the errors, and two calls with cte = 1 steer by -0.25, then by
    -0.5. *)
Lemma fixed_mode_not_idempotent : ~ fixed_mode_idempotent.
Proof.
  intros H.
  assert (Hcb : callbacks [OnControl (-0.25) 1] = callbacks [OnControl (-0.5) 1]).
  { eapply (H Examples.integrating _ _ 1 10).
    - apply reachable_final.
    - reflexivity.
    - vm_compute. reflexivity.
    - vm_compute. reflexivity. }
  apply (f_equal (fun l => match l with
                           | [OnControl steering _] => steering =? -0.25
                           | _ => false
                           end)) in Hcb.
  vm_compute in Hcb. discriminate Hcb.
Qed.

End Repeated.

(** ** The maximal error of an episode *)

Section MaxCte.
#[local] Open Scope float_scope.
Import PidController.

(** C5 fails on the code: line 76 compares cte, not |cte|.  At 1.79 m
    of a track of 50 m, past the 1.25 m that are skipped, a frame with
    cte = -3 leaves max_cte_ at 0.  A whole lap at cte = -4.9, close to
    the edge at 5, ends with max_cte_ = 0 and the coefficients taken as
    final, where the same lap at cte = +4.9 is judged too wide and sent
    back to the tuner. *)
Theorem max_cte_misses_negative_errors :
  (exists c' steering throttle,
     Update Examples.tuning50 (-3) 100 = Ok (c', [OnControl steering throttle])
     /\ (track_length_ c' * 0.025 <? distance_ c') = true
     /\ abs (-3) = 3
     /\ max_cte_ c' = 0)
  /\ (exists c' out,
        Run Examples.tuning50 (repeat (-4.9, 100) 28) = Ok (c', out)
        /\ max_cte_ c' = 0
        /\ has_final_coefficients_ c' = true)
  /\ (exists c' out,
        Run Examples.tuning50 (repeat (4.9, 100) 28) = Ok (c', out)
        /\ has_final_coefficients_ c' = false
        /\ last out = Some OnReset).
Proof.
  split; [|split].
  - eexists _, _, _. split; [vm_compute; reflexivity|].
    repeat split; vm_compute; reflexivity.
  - eexists _, _. split; [vm_compute; reflexivity|].
    split; vm_compute; reflexivity.
  - eexists _, _. split; [vm_compute; reflexivity|].
    split; vm_compute; reflexivity.
Qed.

End MaxCte.

(** ** The constructor with three coefficients *)

Section ZeroThreshold.
#[local] Open Scope float_scope.
Import PidController.

(** C10.  The constructor with three coefficients leaves off_track_cte_
    at zero, calls of Update keep it there, and a call with speed > 60
    computes the throttle as NormalizeControl (1 - 4 |cte| / 0): the
    division is by that zero.  With cte = 0 the throttle is a NaN. *)
Theorem final_constructor_divides_by_zero
  (kp ki kd : float) (frames : list (float * float)) (cte speed : float) :
  off_track_cte_ (NewFinal kp ki kd) = 0
  /\ (exists c out,
        Run (NewFinal kp ki kd) frames = Ok (c, out)
        /\ off_track_cte_ c = 0
        /\ ((60 <? speed) = true ->
            exists c' steering,
              Update c cte speed
              = Ok (c', [OnControl steering
                           (NormalizeControl (1 - 4 * abs cte / 0))])))
  /\ (exists c' steering,
        Update (NewFinal kp ki kd) 0 61 = Ok (c', [OnControl steering nan])).
Proof.
  split; [reflexivity|]. split.
  - destruct (Run_final (NewFinal kp ki kd) frames eq_refl)
      as (c & out & Hrun & Hf & _ & Hoff & _).
    exists c, out. split; [exact Hrun|]. split; [exact Hoff|].
    intros Hspeed. rewrite (Update_final _ _ _ Hf), Control_spec, Hspeed, Hoff.
    now eexists _, _.
  - rewrite Update_final, Control_spec by reflexivity.
    now eexists _, _.
Qed.

End ZeroThreshold.

(** ** The arguments are checked before the controller is built *)

Section Construction.
#[local] Open Scope float_scope.
Import Main.

Variable stod : string -> option float.

Lemma bind_Done {X Y : Type} (o : outcome X) (k : X -> outcome Y) (y : Y) :
  bind o k = Done y -> exists x, o = Done x /\ k x = Done y.
Proof. destruct o as [x| |]; try discriminate. intros H. now exists x. Qed.

(** ProcessBaseParameters returns what [std::stod] read, and only an
    off-track error that is neither below 0 nor below 0.1. *)
Lemma ProcessBaseParameters_Done (argv : list string) kp ki kd off_track_cte :
  ProcessBaseParameters stod argv = Done (kp, ki, kd, off_track_cte) ->
  stod_arg stod argv 1 = Done kp
  /\ stod_arg stod argv 2 = Done ki
  /\ stod_arg stod argv 3 = Done kd
  /\ stod_arg stod argv 4 = Done off_track_cte
  /\ (off_track_cte <? 0.1) = false.
Proof.
  unfold ProcessBaseParameters. intros H.
  apply bind_Done in H as (kp' & H1 & H).
  apply bind_Done in H as (ki' & H2 & H).
  apply bind_Done in H as (kd' & H3 & H).
  apply bind_Done in H as (off' & H4 & H).
  destruct (off' <? 0); [discriminate|].
  change kMinOffTrackCte with 0.1 in H.
  destruct (off' <? 0.1) eqn:Hmin; [discriminate|].
  injection H as -> -> -> ->. auto.
Qed.

(** What the [try] block returns when it builds a controller. *)
Lemma CreatePidController_try_Done (argv : list string) (call : construction) :
  CreatePidController_try stod argv = Done call ->
  match call with
  | Construct4 kp ki kd off_track_cte =>
      (length argv = 1%nat
       /\ (kp, ki, kd, off_track_cte) = (kKp, kKi, kKd, kOffTrackCte))
      \/ (length argv = 5%nat
          /\ stod_arg stod argv 1 = Done kp
          /\ stod_arg stod argv 2 = Done ki
          /\ stod_arg stod argv 3 = Done kd
          /\ stod_arg stod argv 4 = Done off_track_cte
          /\ (off_track_cte <? 0.1) = false)
  | Construct8 kp ki kd off_track_cte dkp dki dkd track_length =>
      length argv = 9%nat
      /\ stod_arg stod argv 1 = Done kp
      /\ stod_arg stod argv 2 = Done ki
      /\ stod_arg stod argv 3 = Done kd
      /\ stod_arg stod argv 4 = Done off_track_cte
      /\ stod_arg stod argv 5 = Done dkp
      /\ stod_arg stod argv 6 = Done dki
      /\ stod_arg stod argv 7 = Done dkd
      /\ stod_arg stod argv 8 = Done track_length
      /\ (off_track_cte <? 0.1) = false
      /\ (track_length <? 50) = false
  end.
Proof.
  unfold CreatePidController_try.
  destruct (length argv) as [|[|[|[|[|[|[|[|[|[|n]]]]]]]]]] eqn:Hlen;
    try discriminate.
  - intros [= <-]. left. auto.
  - intros H. apply bind_Done in H as ([[[kp ki] kd] off] & Hbase & H).
    injection H as <-.
    apply ProcessBaseParameters_Done in Hbase. right. tauto.
  - intros H. apply bind_Done in H as ([[[kp ki] kd] off] & Hbase & H).
    apply bind_Done in H as (dkp & H5 & H).
    apply bind_Done in H as (dki & H6 & H).
    apply bind_Done in H as (dkd & H7 & H).
    apply bind_Done in H as (track_length & H8 & H).
    destruct (track_length <? 0); [discriminate|].
    change kMinTrackLength with 50 in H.
    destruct (track_length <? 50) eqn:Hmin; [discriminate|].
    injection H as <-.
    apply ProcessBaseParameters_Done in Hbase. tauto.
Qed.

Lemma CreatePidController_inr (argv : list string) (call : construction) :
  CreatePidController stod argv = inr call ->
  CreatePidController_try stod argv = Done call.
Proof.
  unfold CreatePidController. destruct (_ && _); [discriminate|].
  destruct (CreatePidController_try stod argv); try discriminate.
  now intros [= ->].
Qed.

(** C9.  CreatePidController checks the arguments before it builds the
    controller, hence before any frame: an offTrackCte below 0.1, or a
    trackLength below 50, ends the process there.  When a controller is
    built, the constructor receives the values [std::stod] read, as they
    are (or the defaults, with no argument). *)
Theorem construction_is_validated (argv : list string) :
  (forall v : float,
     length argv = 5%nat \/ length argv = 9%nat ->
     stod_arg stod argv 4 = Done v -> (v <? 0.1) = true ->
     exists f, CreatePidController stod argv = inl f)
  /\ (forall v : float,
        length argv = 9%nat ->
        stod_arg stod argv 8 = Done v -> (v <? 50) = true ->
        exists f, CreatePidController stod argv = inl f)
  /\ (forall call : construction,
        CreatePidController stod argv = inr call ->
        match call with
        | Construct4 kp ki kd off_track_cte =>
            (length argv = 1%nat
             /\ (kp, ki, kd, off_track_cte) = (kKp, kKi, kKd, kOffTrackCte))
            \/ (length argv = 5%nat
                /\ stod_arg stod argv 1 = Done kp
                /\ stod_arg stod argv 2 = Done ki
                /\ stod_arg stod argv 3 = Done kd
                /\ stod_arg stod argv 4 = Done off_track_cte
                /\ (off_track_cte <? 0.1) = false)
        | Construct8 kp ki kd off_track_cte dkp dki dkd track_length =>
            length argv = 9%nat
            /\ stod_arg stod argv 1 = Done kp
            /\ stod_arg stod argv 2 = Done ki
            /\ stod_arg stod argv 3 = Done kd
            /\ stod_arg stod argv 4 = Done off_track_cte
            /\ stod_arg stod argv 5 = Done dkp
            /\ stod_arg stod argv 6 = Done dki
            /\ stod_arg stod argv 7 = Done dkd
            /\ stod_arg stod argv 8 = Done track_length
            /\ (off_track_cte <? 0.1) = false
            /\ (track_length <? 50) = false
        end).
Proof.
  split; [|split].
  - intros v Hlen Harg Hsmall.
    destruct (CreatePidController stod argv) as [f|call] eqn:Hc; [eauto|].
    apply CreatePidController_inr, CreatePidController_try_Done in Hc.
    exfalso. destruct call.
    + destruct Hc as [[Hone _]|(_ & _ & _ & _ & H4 & Hmin)].
      * destruct Hlen; congruence.
      * rewrite Harg in H4. injection H4 as ->. congruence.
    + destruct Hc as (_ & _ & _ & _ & H4 & _ & _ & _ & _ & Hmin & _).
      rewrite Harg in H4. injection H4 as ->. congruence.
  - intros v Hlen Harg Hsmall.
    destruct (CreatePidController stod argv) as [f|call] eqn:Hc; [eauto|].
    apply CreatePidController_inr, CreatePidController_try_Done in Hc.
    exfalso. destruct call.
    + destruct Hc as [[Hone _]|(Hfive & _)]; congruence.
    + destruct Hc as (_ & _ & _ & _ & _ & _ & _ & _ & H8 & _ & Hmin).
      rewrite Harg in H8. injection H8 as ->. congruence.
  - intros call Hc.
    now apply CreatePidController_inr, CreatePidController_try_Done in Hc.
Qed.

End Construction.

(** ** The tests of the repository, and the theorems at work *)

Section Tests.
#[local] Open Scope float_scope.
Import PidController Examples.

(** TEST(PidController, InitialCoefficientsOnTrack): five frames, five
    control commands; the last steers by about -0.5 at full brake. *)
Example test_InitialCoefficientsOnTrack :
  exists c steering throttle,
    Run tested five_frames = Ok (c, [Cout (NewMaxCte 0);
                                     OnControl (-1) (-1);
                                     OnControl (-0.49999800000000005) (-1);
                                     OnControl (-0.50049700000000008) (-1);
                                     OnControl (-0.50099600000000011) (-1);
                                     OnControl steering throttle])
    /\ (abs (steering - -0.5) <=? 0.1) = true
    /\ (abs (throttle - -1) <=? 1e-3) = true.
Proof. eexists _, _, _. split; [|split]; vm_compute; reflexivity. Qed.

(** TEST(PidController, InitialCoefficientsOffTrack): a sixth frame with
    cte = 5.01 resets the simulator. *)
Example test_InitialCoefficientsOffTrack :
  exists c out,
    Update after_five_frames 5.01 100 = Ok (c, out)
    /\ callbacks out = [OnReset]
    /\ off_track_triggered out = true.
Proof. eexists _, _. split; [|split]; vm_compute; reflexivity. Qed.

(** TEST(PidController, InitialCoefficientsTrackComplete): a sixth frame
    with cte = 4.99 completes the 10 m and resets the simulator. *)
Example test_InitialCoefficientsTrackComplete :
  exists c out,
    Update after_five_frames 4.99 100 = Ok (c, out)
    /\ callbacks out = [OnReset]
    /\ completion_triggered out = true.
Proof. eexists _, _. split; [|split]; vm_compute; reflexivity. Qed.

(** The sixth frame of the off-track test, by [off_track_branch]. *)
Lemma off_track_branch_witness :
  has_final_coefficients_ after_five_frames = false
  /\ twiddler_ after_five_frames = Some tested_tuner
  /\ exists c' out,
       Update after_five_frames 5.01 100 = Ok (c', out)
       /\ off_track_triggered out = true
       /\ callbacks out = [OnReset]
       /\ distance_ c' = 0.
Proof.
  split; [reflexivity|]. split; [reflexivity|].
  destruct (off_track_branch after_five_frames 5.01 100 tested_tuner
              eq_refl eq_refl eq_refl) as (c' & out & Hup & Htrig & Hrest).
  exists c', out. split; [exact Hup|]. split; [exact Htrig|].
  destruct (Hrest eq_refl) as (q0 & q1 & q2 & _ & -> & _ & _ & Hcb).
  split; [exact Hcb|reflexivity].
Defined.

(** The sixth frame of the completion test, by [completion_branch]. *)
Lemma completion_branch_witness :
  has_final_coefficients_ after_five_frames = false
  /\ twiddler_ after_five_frames = Some tested_tuner
  /\ exists c' out,
       Update after_five_frames 4.99 100 = Ok (c', out)
       /\ completion_triggered out = true
       /\ callbacks out = [OnReset]
       /\ distance_ c' = 0.
Proof.
  split; [reflexivity|]. split; [reflexivity|].
  destruct (completion_branch after_five_frames 4.99 100 tested_tuner
              eq_refl eq_refl eq_refl) as (c' & out & Hup & Htrig & Hrest).
  exists c', out. split; [exact Hup|]. split; [exact Htrig|].
  destruct (Hrest eq_refl) as (q0 & q1 & q2 & _ & -> & Hcb).
  split; [exact Hcb|reflexivity].
Defined.

(** The first frame of the tests, by [one_callback_per_update]. *)
Lemma one_callback_per_update_witness :
  reachable tested
  /\ exists c' out,
       Update tested 4.99 100 = Ok (c', out)
       /\ ((exists steering throttle,
              callbacks out = [OnControl steering throttle])
           \/ callbacks out = [OnReset]).
Proof.
  split; [apply reachable_tuning|].
  destruct (one_callback_per_update tested 4.99 100
              (reachable_tuning 0.1 1e-4 4.0 0.01 1e-5 0.1 10 5.0))
    as (c' & out & Hup & Hone & _).
  now exists c', out.
Defined.

(** A lap within half the off-track error makes the coefficients final;
    a frame beyond the off-track error then only steers, by
    [final_coefficients_stay]. *)
Lemma final_coefficients_stay_witness :
  Run tuning50 lap = Ok after_lap
  /\ has_final_coefficients_ (fst after_lap) = true
  /\ exists c2 steering throttle,
       Run tuning50 (lap ++ [(6, 100)])
       = Ok (c2, snd after_lap ++ [OnControl steering throttle])
       /\ has_final_coefficients_ c2 = true.
Proof.
  assert (Hrun : Run tuning50 lap = Ok (fst after_lap, snd after_lap))
    by (vm_compute; reflexivity).
  split; [exact Hrun|]. split; [reflexivity|].
  destruct (final_coefficients_stay tuning50 (fst after_lap) lap [(6, 100)]
              (snd after_lap) Hrun eq_refl)
    as (c2 & out2 & Hrun2 & Hf & _ & _ & _ & _ & _ & Hall & Hlen).
  destruct out2 as [|e [|e' out2]]; try discriminate Hlen.
  apply Forall_inv in Hall as (steering & throttle & ->).
  exists c2, steering, throttle. split; [exact Hrun2|exact Hf].
Defined.

(** A first frame to the left of the centre line, by
    [control_command]: the correction 20.46 is clamped to 1, the drive
    -2.99 to -1. *)
Lemma control_command_witness :
  Update tested (-4.99) 100
  = Ok (set_pid_ (fst (Measure tested (-4.99) 100))
          (snd (Pid.GetError (pid_ tested) (-4.99))),
        [OnControl 1 (-1)])
  /\ (1 <? fst (Pid.GetError (pid_ tested) (-4.99))) = true
  /\ (1 - 4 * abs (-4.99) / off_track_cte_ tested <? -1) = true
  /\ 1 = NormalizeControl (fst (Pid.GetError (pid_ tested) (-4.99)))
  /\ -1 = NormalizeControl (1 - 4 * abs (-4.99) / off_track_cte_ tested).
Proof.
  assert (Hup : Update tested (-4.99) 100
                = Ok (set_pid_ (fst (Measure tested (-4.99) 100))
                        (snd (Pid.GetError (pid_ tested) (-4.99))),
                      [OnControl 1 (-1)]))
    by (vm_compute; reflexivity).
  split; [exact Hup|]. split; [reflexivity|]. split; [reflexivity|].
  destruct (control_command tested _ (-4.99) 100 _ 1 (-1) Hup
              (or_introl eq_refl))
    as (Hsteering & _ & Hthrottle & _).
  split; [exact Hsteering|exact (Hthrottle eq_refl)].
Defined.

(** The coefficients of the tests as rationals, with the scores 1, 2
    and 2, by [tuner_backtracks]. *)
Lemma tuner_backtracks_witness :
  (1 < Q2Qc 2)%Qc
  /\ Twiddler.parameters_
       (Twiddler.submit rational_tuner [1%Qc; Q2Qc 2]) !! 0%nat
     = Some {| Twiddler.p := (Q2Qc (1 # 10) - Q2Qc (1 # 100))%Qc;
               Twiddler.dp := Q2Qc (1 # 100) |}
  /\ Twiddler.parameters_
       (Twiddler.submit rational_tuner [1%Qc; Q2Qc 2; Q2Qc 2]) !! 0%nat
     = Some {| Twiddler.p := Q2Qc (1 # 10);
               Twiddler.dp := (Q2Qc (1 # 100) * Q2Qc (9 # 10))%Qc |}
  /\ Twiddler.current_
       (Twiddler.submit rational_tuner [1%Qc; Q2Qc 2; Q2Qc 2]) = 1%nat.
Proof.
  assert (Hworse : (1 < Q2Qc 2)%Qc) by reflexivity.
  split; [exact Hworse|].
  destruct (tuner_backtracks
              {| Twiddler.p := Q2Qc (1 # 10); Twiddler.dp := Q2Qc (1 # 100) |}
              {| Twiddler.p := Q2Qc (1 # 10000);
                 Twiddler.dp := Q2Qc (1 # 100000) |}
              {| Twiddler.p := Q2Qc 4; Twiddler.dp := Q2Qc (1 # 10) |}
              1%Qc (Q2Qc 2) (Q2Qc 2) Hworse Hworse)
    as (_ & H2 & H3 & Hcur).
  split; [exact H2|]. split; [exact H3|exact Hcur].
Defined.

(** Two equal frames with an integrating law, by [fixed_mode_repeated]. *)
Lemma fixed_mode_repeated_witness :
  has_final_coefficients_ integrating = true
  /\ exists c',
       Run integrating [(1, 10); (1, 10)]
       = Ok (c', [OnControl (-0.25) 1; OnControl (-0.5) 1]).
Proof.
  split; [reflexivity|].
  destruct (fixed_mode_repeated integrating 1 10 2 eq_refl) as (c' & Hrun).
  exists c'. exact Hrun.
Defined.

(** Three command lines, by [construction_is_validated]. *)
Lemma construction_is_validated_witness :
  (exists f, Main.CreatePidController Main.stod_examples argv_small = inl f)
  /\ (exists f,
        Main.CreatePidController Main.stod_examples argv_short_track = inl f)
  /\ Main.stod_arg Main.stod_examples argv_tuning 4 = Main.Done 5
  /\ Main.stod_arg Main.stod_examples argv_tuning 8 = Main.Done 50.
Proof.
  split; [|split].
  - exact (proj1 (construction_is_validated Main.stod_examples argv_small)
             0.05 (or_introl eq_refl) eq_refl eq_refl).
  - exact (proj1 (proj2 (construction_is_validated Main.stod_examples
                           argv_short_track))
             49.9 eq_refl eq_refl eq_refl).
  - pose proof (proj2 (proj2 (construction_is_validated Main.stod_examples
                                argv_tuning))
                  (Main.Construct8 0.2 0.01 4 5 0.01 0.01 0.1 50) eq_refl)
      as (_ & _ & _ & _ & H4 & _ & _ & _ & H8 & _).
    split; [exact H4|exact H8].
Defined.

(** A fast frame on the centre line, by
    [final_constructor_divides_by_zero]. *)
Lemma final_constructor_divides_by_zero_witness :
  off_track_cte_ (NewFinal 0.1 0 0) = 0
  /\ exists c' steering,
       Update (NewFinal 0.1 0 0) 0 61 = Ok (c', [OnControl steering nan]).
Proof.
  destruct (final_constructor_divides_by_zero 0.1 0 0 [] 1 61)
    as (Hzero & _ & Hnan).
  split; [exact Hzero|exact Hnan].
Defined.

End Tests.

(** * Further properties of the code *)

(** ** More on the comparisons of doubles *)

Section FloatOrderMore.
#[local] Open Scope float_scope.

Lemma ltb_irrefl (x : float) : (x <? x) = false.
Proof.
  destruct (x <? x) eqn:H; [|reflexivity].
  now rewrite (ltb_asym _ _ H) in H.
Qed.

Lemma is_nan_true (x : float) : is_nan x = true -> Prim2SF x = S754_nan.
Proof.
  unfold is_nan. rewrite FloatAxioms.eqb_spec. unfold SFeqb.
  destruct (Prim2SF x) as [s|s| |s m e]; simpl; try reflexivity;
    try discriminate.
  - destruct s; discriminate.
  - rewrite Z.compare_refl.
    destruct s; simpl; rewrite Pos.compare_cont_refl; discriminate.
Qed.

(** Nothing is below a NaN, and a NaN is below nothing. *)
Lemma ltb_nan (x y : float) : is_nan x = true -> (x <? y) = false.
Proof.
  intros H. rewrite ltb_spec, (is_nan_true _ H). reflexivity.
Qed.

(** What is at least a positive number is not negative. *)
Lemma leb_positive_not_negative (a x : float) :
  (0 <? a) = true -> (a <=? x) = true -> (x <? 0) = false.
Proof.
  rewrite !ltb_spec, leb_spec. unfold SFltb, SFleb.
  change (Prim2SF 0) with (S754_zero false).
  destruct (Prim2SF a) as [sa|sa| |sa ma ea],
    (Prim2SF x) as [sx|sx| |sx mx ex];
    try destruct sa; try destruct sx; simpl; intros;
    try discriminate; reflexivity.
Qed.

End FloatOrderMore.

(** ** NormalizeControl, lines 23-31 *)

Section NormalizeMore.
#[local] Open Scope float_scope.
Import PidController.

(** NormalizeControl is the clamp to [-1, 1]: what is above 1 becomes 1,
    what is below -1 becomes -1, and a number of [-1, 1] comes out as it
    is.  So a number comes out in [-1, 1], and clamping twice is clamping
    once.  A NaN is not clamped: it comes out as it is. *)
Theorem NormalizeControl_clamps (value : float) :
  ((1 <? value) = true -> NormalizeControl value = 1)
  /\ ((value <? -1) = true -> NormalizeControl value = -1)
  /\ ((-1 <=? value) = true -> (value <=? 1) = true ->
      NormalizeControl value = value)
  /\ (is_nan value = true -> NormalizeControl value = value)
  /\ (is_nan value = false ->
      (-1 <=? NormalizeControl value) = true
      /\ (NormalizeControl value <=? 1) = true)
  /\ NormalizeControl (NormalizeControl value) = NormalizeControl value.
Proof.
  split; [apply NormalizeControl_above|].
  split; [apply NormalizeControl_below|].
  split; [apply NormalizeControl_inside|].
  split; [apply NormalizeControl_nan|].
  split; [apply NormalizeControl_range|].
  unfold NormalizeControl.
  destruct (1 <? value) eqn:H1; [reflexivity|].
  destruct (value <? -1) eqn:H2; [reflexivity|].
  now rewrite H1, H2.
Qed.

End NormalizeMore.

(** ** The shape of a call *)

Section UpdateShape.
#[local] Open Scope float_scope.
Import PidController.

(** What UpdateTwiddlerAndReset leaves when it completes. *)
Lemma UpdateTwiddlerAndReset_shape (c c' : t) (error : float) out :
  UpdateTwiddlerAndReset c error = Ok (c', out) ->
  exists tw' kp ki kd,
    c' = {| has_final_coefficients_ := has_final_coefficients_ c;
            track_length_ := track_length_ c;
            off_track_cte_ := off_track_cte_ c;
            distance_ := 0;
            time_ := 0;
            max_cte_ := 0;
            pid_ := Pid.New kp ki kd;
            twiddler_ := Some tw' |}
    /\ out = [Cout (TryingPidCoefficients kp ki kd)].
Proof.
  unfold UpdateTwiddlerAndReset.
  destruct (twiddler_ c) as [tw|]; [|discriminate].
  destruct (Twiddler.UpdateError tw error) as [tw' ps].
  destruct ps as [|q0 [|q1 [|q2 [|q3 ps]]]]; try discriminate.
  intros [= <- <-]. now eexists _, _, _, _.
Qed.

(** The five ways through Update. *)
Inductive path := Fixed | OffTheTrack | Converged | Retuned | OnTheTrack.

(** A call that completes went one of the five ways; the state and the
    callbacks of each. *)
Lemma Update_paths (c c' : t) (cte speed : float) (out : list event) :
  Update c cte speed = Ok (c', out) ->
  let m := fst (Measure c cte speed) in
  let control :=
    OnControl (NormalizeControl (fst (Pid.GetError (pid_ c) cte)))
      (if 60 <? speed
       then NormalizeControl (1 - 4 * abs cte / off_track_cte_ c)
       else 1) in
  let reset c' :=
    exists tw' kp ki kd,
      c' = {| has_final_coefficients_ := false;
              track_length_ := track_length_ c;
              off_track_cte_ := off_track_cte_ c;
              distance_ := 0;
              time_ := 0;
              max_cte_ := 0;
              pid_ := Pid.New kp ki kd;
              twiddler_ := Some tw' |} in
  exists way : path,
    match way with
    | Fixed =>
        has_final_coefficients_ c = true
        /\ c' = set_pid_ c (snd (Pid.GetError (pid_ c) cte))
        /\ out = [control]
    | OffTheTrack =>
        has_final_coefficients_ c = false
        /\ OffTrack m cte speed = true
        /\ reset c'
        /\ callbacks out = [OnReset]
        /\ off_track_triggered out = true
        /\ completion_triggered out = false
    | Converged =>
        has_final_coefficients_ c = false
        /\ OffTrack m cte speed = false
        /\ (track_length_ m <? distance_ m) = true
        /\ (max_cte_ m <? off_track_cte_ m / 2) = true
        /\ c' = set_pid_ (set_has_final_coefficients_ m true)
                  (snd (Pid.GetError (pid_ c) cte))
        /\ callbacks out = [control]
        /\ off_track_triggered out = false
        /\ completion_triggered out = true
    | Retuned =>
        has_final_coefficients_ c = false
        /\ OffTrack m cte speed = false
        /\ (track_length_ m <? distance_ m) = true
        /\ (max_cte_ m <? off_track_cte_ m / 2) = false
        /\ reset c'
        /\ callbacks out = [OnReset]
        /\ off_track_triggered out = false
        /\ completion_triggered out = true
    | OnTheTrack =>
        has_final_coefficients_ c = false
        /\ OffTrack m cte speed = false
        /\ (track_length_ m <? distance_ m) = false
        /\ c' = set_pid_ m (snd (Pid.GetError (pid_ c) cte))
        /\ callbacks out = [control]
        /\ off_track_triggered out = false
        /\ completion_triggered out = false
    end.
Proof.
  intros Hup m control reset.
  destruct (has_final_coefficients_ c) eqn:Hf.
  { rewrite (Update_final _ _ _ Hf), Control_spec in Hup.
    injection Hup as <- <-. now exists Fixed. }
  rewrite (Update_tuning _ _ _ Hf) in Hup. cbv zeta in Hup. fold m in Hup.
  pose proof (Measure_printed c cte speed) as [Hoff Hcompl].
  pose proof (Measure_callbacks c cte speed) as Hcb.
  assert (Hfm : has_final_coefficients_ m = false)
    by (unfold m; now rewrite Measure_has_final_coefficients).
  assert (Htl : track_length_ m = track_length_ c)
    by apply Measure_track_length.
  assert (Hot : off_track_cte_ m = off_track_cte_ c)
    by apply Measure_off_track_cte.
  assert (Hpid : pid_ m = pid_ c) by apply Measure_pid.
  destruct (OffTrack m cte speed) eqn:HO.
  { destruct (UpdateTwiddlerAndReset m _) as [[c3 out3]|] eqn:Hreset;
      [|discriminate].
    apply UpdateTwiddlerAndReset_shape in Hreset
      as (tw' & kp & ki & kd & -> & ->).
    injection Hup as <- <-. exists OffTheTrack.
    rewrite Hfm, Htl, Hot. split; [reflexivity|]. split; [reflexivity|].
    split; [now exists tw', kp, ki, kd|].
    rewrite callbacks_app, off_track_triggered_app,
      completion_triggered_app, Hcb, Hoff, Hcompl.
    repeat split. }
  destruct (track_length_ m <? distance_ m) eqn:Hlen.
  - destruct (max_cte_ m <? off_track_cte_ m / 2) eqn:Hmax.
    + rewrite Control_spec in Hup. cbn [fst snd] in Hup.
      injection Hup as <- <-. exists Converged.
      rewrite callbacks_app, off_track_triggered_app,
        completion_triggered_app, Hcb, Hoff, Hcompl.
      cbn [set_has_final_coefficients_ pid_ off_track_cte_].
      rewrite Hpid, Hot. repeat split.
    + destruct (UpdateTwiddlerAndReset m _) as [[c3 out3]|] eqn:Hreset;
        [|discriminate].
      apply UpdateTwiddlerAndReset_shape in Hreset
        as (tw' & kp & ki & kd & -> & ->).
      injection Hup as <- <-. exists Retuned.
      rewrite Hfm, Htl, Hot. do 4 (split; [reflexivity|]).
      split; [now exists tw', kp, ki, kd|].
      rewrite callbacks_app, off_track_triggered_app,
        completion_triggered_app, Hcb, Hoff, Hcompl.
      repeat split.
  - rewrite Control_spec in Hup. cbn [fst snd] in Hup.
    injection Hup as <- <-. exists OnTheTrack.
    rewrite callbacks_app, off_track_triggered_app,
      completion_triggered_app, Hcb, Hoff, Hcompl, Hpid, Hot.
    repeat split.
Qed.

End UpdateShape.

(** ** What a call does to the object *)

Section UpdateMore.
#[local] Open Scope float_scope.
Import PidController.

Lemma Update_reachable (c c' : t) (cte speed : float) (out : list event) :
  reachable c -> Update c cte speed = Ok (c', out) ->
  reachable c' /\ length (callbacks out) = 1%nat.
Proof.
  intros Hr Hup. split; [exact (reachable_update _ _ _ _ _ Hr Hup)|].
  destruct (Update_callbacks _ _ _ _ _ Hup) as [-> | ->]; reflexivity.
Qed.

(** Whatever frames arrive, an object built by a constructor answers
    each of them: the calls complete, with as many callbacks as frames. *)
Theorem every_frame_is_answered (c : t) (frames : list (float * float)) :
  reachable c ->
  exists c' out,
    Run c frames = Ok (c', out)
    /\ reachable c'
    /\ length (callbacks out) = length frames.
Proof.
  revert c. induction frames as [|[cte speed] frames IH]; intros c Hr.
  - exists c, []. repeat split. exact Hr.
  - cbn [Run].
    destruct (Update_outcome c cte speed (reachable_tuner_ready c Hr))
      as (c1 & out1 & Hup & _).
    rewrite Hup.
    destruct (Update_reachable _ _ _ _ _ Hr Hup) as [Hr1 Hone].
    destruct (IH c1 Hr1) as (c2 & out2 & -> & Hr2 & Hlen).
    exists c2, (out1 ++ out2). split; [reflexivity|]. split; [exact Hr2|].
    rewrite callbacks_app, length_app, Hone, Hlen. reflexivity.
Qed.

Lemma Update_thresholds (c c' : t) (cte speed : float) (out : list event) :
  Update c cte speed = Ok (c', out) ->
  track_length_ c' = track_length_ c /\ off_track_cte_ c' = off_track_cte_ c.
Proof.
  intros Hup. apply Update_paths in Hup as ([] & H); cbv zeta in H.
  - destruct H as (_ & -> & _). now split.
  - destruct H as (_ & _ & (tw' & kp & ki & kd & ->) & _). now split.
  - destruct H as (_ & _ & _ & _ & -> & _). cbn.
    now rewrite Measure_track_length, Measure_off_track_cte.
  - destruct H as (_ & _ & _ & _ & (tw' & kp & ki & kd & ->) & _).
    now split.
  - destruct H as (_ & _ & _ & -> & _). cbn.
    now rewrite Measure_track_length, Measure_off_track_cte.
Qed.

(** The two thresholds given to the constructor, the length of the track
    and the off-track error, are never changed: not by the bookkeeping,
    not when the tuner restarts an episode, not when the coefficients
    become final. *)
Theorem thresholds_are_kept
  (c c' : t) (frames : list (float * float)) (out : list event) :
  Run c frames = Ok (c', out) ->
  track_length_ c' = track_length_ c /\ off_track_cte_ c' = off_track_cte_ c.
Proof.
  revert c out. induction frames as [|[cte speed] frames IH]; intros c out.
  - intros [= <- <-]. now split.
  - cbn [Run]. destruct (Update c cte speed) as [[c1 out1]|] eqn:Hup;
      [|discriminate].
    destruct (Run c1 frames) as [[c2 out2]|] eqn:Hrun; [|discriminate].
    intros [= <- <-].
    destruct (Update_thresholds _ _ _ _ _ Hup) as [<- <-].
    exact (IH _ _ Hrun).
Qed.

(** The callback tells what happened to the object.  After on_reset a new
    episode starts: the counters are zero, the PID law is a new one, the
    coefficients are not final, and the call printed why the episode
    ended.  After on_control the tuner is the one of before and the PID
    law has taken one step. *)
Theorem callback_tells_the_state
  (c c' : t) (cte speed : float) (out : list event) :
  Update c cte speed = Ok (c', out) ->
  (callbacks out = [OnReset] ->
   has_final_coefficients_ c = false
   /\ has_final_coefficients_ c' = false
   /\ distance_ c' = 0 /\ time_ c' = 0 /\ max_cte_ c' = 0
   /\ (exists kp ki kd, pid_ c' = Pid.New kp ki kd)
   /\ off_track_triggered out || completion_triggered out = true)
  /\ (forall steering throttle,
        callbacks out = [OnControl steering throttle] ->
        twiddler_ c' = twiddler_ c
        /\ pid_ c' = snd (Pid.GetError (pid_ c) cte)).
Proof.
  intros Hup. apply Update_paths in Hup as ([] & H); cbv zeta in H.
  - destruct H as (_ & -> & ->). split; [discriminate|]. now intros.
  - destruct H as (Hf & _ & (tw' & kp & ki & kd & ->) & Hcb & Hoff & _).
    rewrite Hcb, Hoff. split; [|discriminate]. intros _.
    repeat split; eauto.
  - destruct H as (_ & _ & _ & _ & -> & Hcb & _). rewrite Hcb.
    split; [discriminate|]. intros s th _. cbn.
    now rewrite Measure_twiddler.
  - destruct H as (Hf & _ & _ & _ & (tw' & kp & ki & kd & ->) & Hcb & _ & Hc).
    rewrite Hcb, Hc, orb_true_r. split; [|discriminate]. intros _.
    repeat split; eauto.
  - destruct H as (_ & _ & _ & -> & Hcb & _). rewrite Hcb.
    split; [discriminate|]. intros s th _. cbn.
    now rewrite Measure_twiddler.
Qed.

(** While tuning, a frame that leaves the distance at no more than 5 m
    and at no more than the length of the track ends no episode: the
    distance and the time grow by the frame, the tuner is not consulted
    (it may even be absent), and on_control is invoked. *)
Theorem no_episode_ends_early (c : t) (cte speed : float) :
  has_final_coefficients_ c = false ->
  let distance := distance_ c + kSpeedToDistanceCoeff * speed in
  (5 <? distance) = false ->
  (track_length_ c <? distance) = false ->
  exists out,
    Update c cte speed
    = Ok ({| has_final_coefficients_ := false;
             track_length_ := track_length_ c;
             off_track_cte_ := off_track_cte_ c;
             distance_ := distance;
             time_ := time_ c + kSecondsPerFrame;
             max_cte_ :=
               if (max_cte_ c <? cte) && (track_length_ c * 0.025 <? distance)
               then cte else max_cte_ c;
             pid_ := snd (Pid.GetError (pid_ c) cte);
             twiddler_ := twiddler_ c |}, out)
    /\ callbacks out
       = [OnControl
            (NormalizeControl (fst (Pid.GetError (pid_ c) cte)))
            (if 60 <? speed
             then NormalizeControl (1 - 4 * abs cte / off_track_cte_ c)
             else 1)].
Proof.
  intros Hf distance Hmin Hlen.
  rewrite (Update_tuning _ _ _ Hf). cbv zeta.
  pose proof (Measure_callbacks c cte speed) as Hcb.
  set (out1 := snd (Measure c cte speed)) in *.
  rewrite Measure_fst.
  set (m := {| has_final_coefficients_ := _ |}).
  change (OffTrack m cte speed)
    with ((5 <? distance) && ((off_track_cte_ c <? abs cte) || (speed <? 1))).
  change (track_length_ m <? distance_ m) with (track_length_ c <? distance).
  rewrite Hmin, Hlen. cbn [andb]. rewrite Control_spec. cbn [fst snd].
  eexists. split.
  - unfold m. cbn. now rewrite Hf.
  - now rewrite callbacks_app, Hcb.
Qed.

(** The coefficients become final in one way only: by a frame that
    completes the track with max_cte_ below half the off-track error and
    is not off the track.  That frame invokes on_control, leaves the
    tuner alone and does not zero the counters. *)
Theorem final_only_by_completion
  (c c' : t) (cte speed : float) (out : list event) :
  has_final_coefficients_ c = false ->
  Update c cte speed = Ok (c', out) ->
  has_final_coefficients_ c' = true ->
  completion_triggered out = true
  /\ off_track_triggered out = false
  /\ distance_ c' = distance_ c + kSpeedToDistanceCoeff * speed
  /\ time_ c' = time_ c + kSecondsPerFrame
  /\ (track_length_ c <? distance_ c') = true
  /\ (max_cte_ c' <? off_track_cte_ c / 2) = true
  /\ twiddler_ c' = twiddler_ c
  /\ exists steering throttle, callbacks out = [OnControl steering throttle].
Proof.
  intros Hf Hup Hf'. apply Update_paths in Hup as ([] & H); cbv zeta in H.
  - destruct H as (H & _). congruence.
  - destruct H as (_ & _ & (tw' & kp & ki & kd & ->) & _). discriminate.
  - destruct H as (_ & Hoff & Hlen & Hmax & -> & Hcb & Ho & Hc).
    rewrite Measure_track_length in Hlen.
    rewrite Measure_off_track_cte in Hmax. cbn.
    rewrite Measure_distance, Measure_time, Measure_twiddler.
    rewrite Measure_distance in Hlen.
    repeat split; eauto.
  - destruct H as (_ & _ & _ & _ & (tw' & kp & ki & kd & ->) & _).
    discriminate.
  - destruct H as (_ & _ & _ & -> & _). cbn in Hf'.
    rewrite Measure_has_final_coefficients in Hf'. congruence.
Qed.

(** Past the part of the track that is skipped, a frame that ends no
    episode leaves a max_cte_ that the signed error of the frame does not
    exceed, and that is the old one or above it. *)
Theorem max_cte_bounds_the_frame
  (c c' : t) (cte speed : float) (out : list event) (steering throttle : float) :
  has_final_coefficients_ c = false ->
  Update c cte speed = Ok (c', out) ->
  callbacks out = [OnControl steering throttle] ->
  (track_length_ c * 0.025 <? distance_ c') = true ->
  (max_cte_ c' <? cte) = false
  /\ (max_cte_ c' = max_cte_ c \/ (max_cte_ c <? max_cte_ c') = true).
Proof.
  intros Hf Hup Hcb Hskip.
  assert (Hc' : max_cte_ c' = max_cte_ (fst (Measure c cte speed))
                /\ distance_ c' = distance_ (fst (Measure c cte speed))).
  { apply Update_paths in Hup as ([] & H); cbv zeta in H.
    - destruct H as (H & _). congruence.
    - destruct H as (_ & _ & _ & H & _). rewrite H in Hcb. discriminate.
    - destruct H as (_ & _ & _ & _ & -> & _). now split.
    - destruct H as (_ & _ & _ & _ & _ & H & _). rewrite H in Hcb.
      discriminate.
    - destruct H as (_ & _ & _ & -> & _). now split. }
  destruct Hc' as [Hmax Hd]. rewrite Hd, Measure_distance in Hskip.
  rewrite Hmax, Measure_max_cte.
  change kMaxCteSkipPart with 0.025. rewrite Hskip, andb_true_r.
  destruct (max_cte_ c <? cte) eqn:Hlt.
  - split; [apply ltb_irrefl|now right].
  - split; [exact Hlt|now left].
Qed.

End UpdateMore.

(** ** More on the command line *)

Section ConstructionMore.
#[local] Open Scope float_scope.
Import Main.

Variable stod : string -> option float.

Lemma bind_Exit {X Y : Type} (o : outcome X) (k : X -> outcome Y) (f : failure) :
  bind o k = Exit f -> o = Exit f \/ exists x, o = Done x /\ k x = Exit f.
Proof. destruct o as [x| |]; try discriminate; [eauto|]. intros [= ->]. now left. Qed.

Lemma stod_arg_Exit (argv : list string) (i : nat) (f : failure) :
  stod_arg stod argv i <> Exit f.
Proof.
  unfold stod_arg. destruct (argv !! i) as [s|]; [|discriminate].
  destruct (stod s); discriminate.
Qed.

(** The exits of ProcessBaseParameters are its two complaints. *)
Lemma ProcessBaseParameters_Exit (argv : list string) (f : failure) :
  ProcessBaseParameters stod argv = Exit f ->
  f = OffTrackCteMayNotBeNegative \/ f = OffTrackCteTooSmall.
Proof.
  unfold ProcessBaseParameters. intros H.
  repeat (apply bind_Exit in H as [H|(? & _ & H)];
          [now apply stod_arg_Exit in H|]).
  destruct (_ <? 0); [injection H as <-; now left|].
  destruct (_ <? kMinOffTrackCte); [injection H as <-; now right|].
  discriminate.
Qed.

(** The exits of the [try] block, for the three numbers of arguments
    that reach it. *)
Lemma CreatePidController_try_Exit (argv : list string) (f : failure) :
  length argv = 1%nat \/ length argv = 5%nat \/ length argv = 9%nat ->
  CreatePidController_try stod argv = Exit f ->
  f = OffTrackCteMayNotBeNegative \/ f = OffTrackCteTooSmall
  \/ f = TrackLengthMayNotBeNegative \/ f = TrackLengthTooSmall.
Proof.
  unfold CreatePidController_try. intros [-> | [-> | ->]] H.
  - discriminate.
  - apply bind_Exit in H as [H|([[[kp ki] kd] off] & _ & H)];
      [|discriminate].
    apply ProcessBaseParameters_Exit in H. tauto.
  - apply bind_Exit in H as [H|([[[kp ki] kd] off] & _ & H)].
    { apply ProcessBaseParameters_Exit in H. tauto. }
    repeat (apply bind_Exit in H as [H|(? & _ & H)];
            [now apply stod_arg_Exit in H|]).
    destruct (_ <? 0); [injection H as <-; tauto|].
    destruct (_ <? kMinTrackLength); [injection H as <-; tauto|].
    discriminate.
Qed.

(** The number of arguments is checked first: the usage instructions
    alone are printed exactly when it is not 1, 5 or 9, whatever the
    arguments are.  The complaint of line 141 about the number of
    arguments is never printed. *)
Theorem argument_count_is_checked (argv : list string) :
  (CreatePidController stod argv = inl UsageInstructions
   <-> length argv <> 1%nat /\ length argv <> 5%nat /\ length argv <> 9%nat)
  /\ CreatePidController stod argv <> inl InvalidNumberOfArguments.
Proof.
  unfold CreatePidController.
  destruct (Nat.eqb_spec (length argv) 1) as [H1|H1];
    [|destruct (Nat.eqb_spec (length argv) 5) as [H5|H5];
      [|destruct (Nat.eqb_spec (length argv) 9) as [H9|H9]]];
    cbn [negb andb].
  4: { split; [|discriminate]. split; [now intros _|reflexivity]. }
  all: assert (Hlen : length argv = 1%nat \/ length argv = 5%nat
                      \/ length argv = 9%nat) by tauto.
  all: destruct (CreatePidController_try stod argv) as [call|f|] eqn:Htry.
  all: try (split; [split; [discriminate|lia]|discriminate]).
  all: apply (CreatePidController_try_Exit _ _ Hlen) in Htry.
  all: split; [split; [|lia]|]; intros [= ->];
    destruct Htry as [|[|[|]]]; discriminate.
Qed.

(** With five arguments that [std::stod] reads, the fifth neither below
    0 nor below 0.1, the controller is built from them. *)
Lemma CreatePidController_five (argv : list string) (kp ki kd off : float) :
  length argv = 5%nat ->
  stod_arg stod argv 1 = Done kp -> stod_arg stod argv 2 = Done ki ->
  stod_arg stod argv 3 = Done kd -> stod_arg stod argv 4 = Done off ->
  (off <? 0) = false -> (off <? 0.1) = false ->
  CreatePidController stod argv = inr (Construct4 kp ki kd off).
Proof.
  intros Hlen H1 H2 H3 H4 Hneg Hmin.
  unfold CreatePidController, CreatePidController_try, ProcessBaseParameters.
  rewrite Hlen, H1, H2, H3, H4. cbn [bind Nat.eqb negb andb].
  change kMinOffTrackCte with 0.1. now rewrite Hneg, Hmin.
Qed.

Lemma CreatePidController_nine
  (argv : list string) (kp ki kd off dkp dki dkd track_length : float) :
  length argv = 9%nat ->
  stod_arg stod argv 1 = Done kp -> stod_arg stod argv 2 = Done ki ->
  stod_arg stod argv 3 = Done kd -> stod_arg stod argv 4 = Done off ->
  stod_arg stod argv 5 = Done dkp -> stod_arg stod argv 6 = Done dki ->
  stod_arg stod argv 7 = Done dkd ->
  stod_arg stod argv 8 = Done track_length ->
  (off <? 0) = false -> (off <? 0.1) = false ->
  (track_length <? 0) = false -> (track_length <? 50) = false ->
  CreatePidController stod argv
  = inr (Construct8 kp ki kd off dkp dki dkd track_length).
Proof.
  intros Hlen H1 H2 H3 H4 H5 H6 H7 H8 Hneg Hmin Hneg' Hmin'.
  unfold CreatePidController, CreatePidController_try, ProcessBaseParameters.
  rewrite Hlen, H1, H2, H3, H4. cbn [bind Nat.eqb negb andb].
  change kMinOffTrackCte with 0.1. rewrite Hneg, Hmin. cbn [bind].
  rewrite H5, H6, H7, H8. cbn [bind].
  change kMinTrackLength with 50. now rewrite Hneg', Hmin'.
Qed.

(** No valid command line is turned down: nine arguments that
    [std::stod] reads, with offTrackCte >= 0.1 and trackLength >= 50,
    build the tuning controller from these very values; five arguments
    with offTrackCte >= 0.1 build the controller with final
    coefficients. *)
Theorem valid_arguments_are_accepted (argv : list string) :
  (forall kp ki kd off dkp dki dkd track_length : float,
     length argv = 9%nat ->
     stod_arg stod argv 1 = Done kp -> stod_arg stod argv 2 = Done ki ->
     stod_arg stod argv 3 = Done kd -> stod_arg stod argv 4 = Done off ->
     stod_arg stod argv 5 = Done dkp -> stod_arg stod argv 6 = Done dki ->
     stod_arg stod argv 7 = Done dkd ->
     stod_arg stod argv 8 = Done track_length ->
     (0.1 <=? off) = true -> (50 <=? track_length) = true ->
     CreatePidController stod argv
     = inr (Construct8 kp ki kd off dkp dki dkd track_length))
  /\ (forall kp ki kd off : float,
        length argv = 5%nat ->
        stod_arg stod argv 1 = Done kp -> stod_arg stod argv 2 = Done ki ->
        stod_arg stod argv 3 = Done kd -> stod_arg stod argv 4 = Done off ->
        (0.1 <=? off) = true ->
        CreatePidController stod argv = inr (Construct4 kp ki kd off)).
Proof.
  split.
  - intros kp ki kd off dkp dki dkd track_length Hlen
      H1 H2 H3 H4 H5 H6 H7 H8 Hoff Htl.
    apply CreatePidController_nine; try assumption.
    + now apply (leb_positive_not_negative 0.1).
    + now apply leb_ltb_false.
    + now apply (leb_positive_not_negative 50).
    + now apply leb_ltb_false.
  - intros kp ki kd off Hlen H1 H2 H3 H4 Hoff.
    apply CreatePidController_five; try assumption.
    + now apply (leb_positive_not_negative 0.1).
    + now apply leb_ltb_false.
Qed.

(** A NaN passes the checks: it is below nothing.  An offTrackCte that
    [std::stod] reads as a NaN is handed to the constructor, and so is a
    trackLength that reads as a NaN. *)
Theorem nan_passes_the_checks (argv : list string) :
  (forall kp ki kd off : float,
     length argv = 5%nat ->
     stod_arg stod argv 1 = Done kp -> stod_arg stod argv 2 = Done ki ->
     stod_arg stod argv 3 = Done kd -> stod_arg stod argv 4 = Done off ->
     is_nan off = true ->
     CreatePidController stod argv = inr (Construct4 kp ki kd off))
  /\ (forall kp ki kd off dkp dki dkd track_length : float,
        length argv = 9%nat ->
        stod_arg stod argv 1 = Done kp -> stod_arg stod argv 2 = Done ki ->
        stod_arg stod argv 3 = Done kd -> stod_arg stod argv 4 = Done off ->
        stod_arg stod argv 5 = Done dkp -> stod_arg stod argv 6 = Done dki ->
        stod_arg stod argv 7 = Done dkd ->
        stod_arg stod argv 8 = Done track_length ->
        is_nan off = true \/ (0.1 <=? off) = true ->
        is_nan track_length = true ->
        CreatePidController stod argv
        = inr (Construct8 kp ki kd off dkp dki dkd track_length)).
Proof.
  split.
  - intros kp ki kd off Hlen H1 H2 H3 H4 Hnan.
    apply CreatePidController_five; try assumption; now apply ltb_nan.
  - intros kp ki kd off dkp dki dkd track_length Hlen
      H1 H2 H3 H4 H5 H6 H7 H8 Hoff Hnan.
    apply CreatePidController_nine; try assumption;
      try (now apply ltb_nan).
    + destruct Hoff as [Hoff|Hoff]; [now apply ltb_nan|].
      now apply (leb_positive_not_negative 0.1).
    + destruct Hoff as [Hoff|Hoff]; [now apply ltb_nan|].
      now apply leb_ltb_false.
Qed.

End ConstructionMore.

(** ** GetJsonData, main.cpp lines 36-43 *)

Section JsonData.
Import Server.
#[local] Open Scope string_scope.

Lemma get_lt (s : string) (i : nat) (a : ascii) :
  get i s = Some a -> (i < String.length s)%nat.
Proof.
  revert i. induction s as [|b s IH]; intros [|i]; simpl; try discriminate.
  - lia.
  - intros H. apply IH in H. lia.
Qed.

Lemma find_first_of_get (c : ascii) (s : string) (i : nat) :
  find_first_of c s = Some i -> get i s = Some c.
Proof.
  revert i. induction s as [|a s IH]; intros i; simpl; [discriminate|].
  destruct (Ascii.eqb_spec a c) as [->|_].
  - now intros [= <-].
  - destruct (find_first_of c s) as [j|]; [|discriminate].
    intros [= <-]. now apply IH.
Qed.

Lemma find_last_of_get (c : ascii) (s : string) (i : nat) :
  find_last_of c s = Some i -> get i s = Some c.
Proof.
  revert i. induction s as [|a s IH]; intros i; simpl; [discriminate|].
  destruct (find_last_of c s) as [j|].
  - intros [= <-]. now apply IH.
  - destruct (Ascii.eqb_spec a c) as [->|_]; [|discriminate].
    now intros [= <-].
Qed.

(** After the position [find_last_of] returns, the character does not
    occur. *)
Lemma find_last_of_last (c : ascii) (s : string) (i j : nat) :
  find_last_of c s = Some i -> (i < j)%nat -> get j s <> Some c.
Proof.
  revert i j. induction s as [|a s IH]; intros i j; simpl; [discriminate|].
  destruct (find_last_of c s) as [k|] eqn:Hk.
  - intros [= <-] Hlt. destruct j as [|j]; [lia|].
    apply (IH k); [reflexivity|lia].
  - destruct (Ascii.eqb_spec a c) as [->|_]; [|discriminate].
    intros [= <-] Hlt. destruct j as [|j]; [lia|].
    clear Hlt IH. revert j. induction s as [|b s IHs]; intros j.
    + now destruct j.
    + simpl in Hk. destruct (find_last_of c s); [discriminate|].
      destruct (Ascii.eqb_spec b c) as [->|Hne]; [discriminate|].
      destruct j as [|j]; simpl; [congruence|]. now apply IHs.
Qed.

Lemma length_substring (s : string) (n m : nat) :
  (n + m <= String.length s)%nat -> String.length (substring n m s) = m.
Proof.
  revert n m. induction s as [|a s IH]; intros [|n] [|m]; simpl;
    try lia; intros H.
  - f_equal. apply (IH 0%nat). simpl. lia.
  - apply IH. lia.
  - apply IH. lia.
Qed.

Lemma get_substring_tail (s : string) (n m j : nat) :
  get j (substring n m s) = None \/ get j (substring n m s) = get (j + n) s.
Proof.
  destruct (Nat.lt_ge_cases j m) as [H|H].
  - right. now apply substring_correct1.
  - left. now apply substring_correct2.
Qed.

(** The count of line 42 when the "]" is not before the "[". *)
Lemma GetJsonData_inside (s : string) (b1 b2 : nat) :
  (Z.of_nat (String.length s) < size_modulus)%Z ->
  String.index 0 "null" s = None ->
  find_first_of "[" s = Some b1 ->
  find_last_of "]" s = Some b2 ->
  (b1 <= b2)%nat ->
  GetJsonData s = substring b1 (b2 - b1 + 1) s.
Proof.
  intros Hsize Hnull H1 H2 Hle.
  pose proof (get_lt _ _ _ (find_last_of_get _ _ _ H2)) as Hb2.
  unfold GetJsonData, substr. rewrite Hnull, H1, H2.
  rewrite Z.mod_small by (unfold size_modulus in *; lia).
  f_equal. lia.
Qed.

(** The count of line 42 when the "]" is well before the "[": the
    subtraction wraps. *)
Lemma GetJsonData_tail (s : string) (b1 b2 : nat) :
  (Z.of_nat (String.length s) < size_modulus)%Z ->
  String.index 0 "null" s = None ->
  find_first_of "[" s = Some b1 ->
  find_last_of "]" s = Some b2 ->
  (b2 + 1 < b1)%nat ->
  GetJsonData s = substring b1 (String.length s - b1) s.
Proof.
  intros Hsize Hnull H1 H2 Hlt.
  pose proof (get_lt _ _ _ (find_first_of_get _ _ _ H1)) as Hb1.
  unfold GetJsonData, substr. rewrite Hnull, H1, H2. f_equal.
  assert (Hwrap : ((Z.of_nat b2 - Z.of_nat b1 + 1) mod size_modulus
                   = Z.of_nat b2 - Z.of_nat b1 + 1 + size_modulus)%Z).
  { symmetry. apply (Z.mod_unique _ _ (-1)%Z);
      unfold size_modulus in *; lia. }
  rewrite Hwrap. unfold size_modulus in *. lia.
Qed.

Lemma substring_first (s : string) (n m : nat) (a : ascii) :
  get n s = Some a -> (0 < m)%nat -> get 0 (substring n m s) = Some a.
Proof. intros H Hm. now rewrite substring_correct1 by lia. Qed.

(** The text between the brackets.  When the first "[" comes before the
    last "]" and "null" does not occur, GetJsonData returns the text from
    that "[" to that "]", both included, with nothing left out. *)
Theorem GetJsonData_brackets (s : string) (b1 b2 : nat) :
  (Z.of_nat (String.length s) < size_modulus)%Z ->
  String.index 0 "null" s = None ->
  find_first_of "[" s = Some b1 ->
  find_last_of "]" s = Some b2 ->
  (b1 <= b2)%nat ->
  GetJsonData s = substring b1 (b2 - b1 + 1) s
  /\ String.length (GetJsonData s) = (b2 - b1 + 1)%nat
  /\ get 0 (GetJsonData s) = Some "["%char
  /\ get (b2 - b1) (GetJsonData s) = Some "]"%char.
Proof.
  intros Hsize Hnull H1 H2 Hle.
  pose proof (get_lt _ _ _ (find_last_of_get _ _ _ H2)) as Hb2.
  rewrite (GetJsonData_inside s b1 b2) by assumption.
  split; [reflexivity|]. split; [apply length_substring; lia|].
  split.
  - apply substring_first; [now apply find_first_of_get|lia].
  - rewrite substring_correct1 by lia.
    replace (b2 - b1 + b1)%nat with b2 by lia. now apply find_last_of_get.
Qed.

(** The subtraction of line 42 wraps.  When the last "]" comes before
    the first "[", with something in between, [b2 - b1 + 1] is a huge
    [size_t] and GetJsonData returns all of the text from the "[" on: a
    text that is not empty and holds no "]". *)
Theorem GetJsonData_wraps (s : string) (b1 b2 : nat) :
  (Z.of_nat (String.length s) < size_modulus)%Z ->
  String.index 0 "null" s = None ->
  find_first_of "[" s = Some b1 ->
  find_last_of "]" s = Some b2 ->
  (b2 + 1 < b1)%nat ->
  GetJsonData s = substring b1 (String.length s - b1) s
  /\ get 0 (GetJsonData s) = Some "["%char
  /\ forall j, get j (GetJsonData s) <> Some "]"%char.
Proof.
  intros Hsize Hnull H1 H2 Hlt.
  pose proof (get_lt _ _ _ (find_first_of_get _ _ _ H1)) as Hb1.
  rewrite (GetJsonData_tail s b1 b2) by assumption.
  split; [reflexivity|]. split.
  - apply substring_first; [now apply find_first_of_get|lia].
  - intros j. destruct (get_substring_tail s b1 (String.length s - b1) j)
      as [-> | ->]; [discriminate|].
    apply (find_last_of_last _ _ b2); [exact H2|lia].
Qed.

(** When GetJsonData returns the empty string: "null" occurs somewhere,
    or there is no "[", or no "]", or the last "]" stands right before
    the first "[" (the count of line 42 is then 0); and in no other
    case. *)
Theorem GetJsonData_empty_iff (s : string) :
  (Z.of_nat (String.length s) < size_modulus)%Z ->
  GetJsonData s = ""
  <-> (String.index 0 "null" s <> None
       \/ find_first_of "[" s = None
       \/ find_last_of "]" s = None
       \/ exists b2, find_first_of "[" s = Some (S b2)
                     /\ find_last_of "]" s = Some b2).
Proof.
  intros Hsize.
  destruct (String.index 0 "null" s) as [i|] eqn:Hnull.
  { unfold GetJsonData. rewrite Hnull.
    split; [left; discriminate|reflexivity]. }
  destruct (find_first_of "[" s) as [b1|] eqn:H1.
  2: { unfold GetJsonData. rewrite Hnull, H1. split; [tauto|reflexivity]. }
  destruct (find_last_of "]" s) as [b2|] eqn:H2.
  2: { unfold GetJsonData. rewrite Hnull, H1, H2.
       split; [tauto|reflexivity]. }
  pose proof (find_first_of_get _ _ _ H1) as Hget1.
  pose proof (get_lt _ _ _ Hget1) as Hb1.
  destruct (Nat.le_gt_cases b1 b2) as [Hle|Hgt].
  - rewrite (GetJsonData_inside s b1 b2) by assumption.
    pose proof (substring_first s b1 (b2 - b1 + 1) _ Hget1) as Hget.
    split.
    + intros Hempty. rewrite Hempty in Hget. specialize (Hget ltac:(lia)).
      discriminate.
    + intros [H|[H|[H|(b & [= ->] & [= ->])]]]; first [congruence|lia].
  - destruct (Nat.eq_dec b1 (S b2)) as [->|Hne].
    + split; [intros _; do 3 right; now exists b2|]. intros _.
      unfold GetJsonData, substr. rewrite Hnull, H1, H2.
      replace (Z.of_nat b2 - Z.of_nat (S b2) + 1)%Z with 0%Z by lia.
      rewrite Z.mod_0_l by (unfold size_modulus; lia).
      rewrite Z.min_l by lia. simpl Z.to_nat.
      clear. revert s. induction (S b2) as [|n IH]; intros [|a s];
        simpl; auto.
    + rewrite (GetJsonData_tail s b1 b2) by (assumption || lia).
      pose proof (substring_first s b1 (String.length s - b1) _ Hget1)
        as Hget.
      split.
      * intros Hempty. rewrite Hempty in Hget. specialize (Hget ltac:(lia)).
        discriminate.
      * intros [H|[H|[H|(b & [= ->] & [= ->])]]]; first [congruence|lia].
Qed.

End JsonData.

(** ** A threshold that is a NaN *)

Section NanThreshold.
#[local] Open Scope float_scope.
Import PidController.

Lemma ltb_nan_r (x y : float) : is_nan y = true -> (x <? y) = false.
Proof.
  intros H. rewrite ltb_spec, (is_nan_true _ H). unfold SFltb.
  now destruct (Prim2SF x).
Qed.

Lemma div_nan (x y : float) : is_nan x = true -> is_nan (x / y) = true.
Proof.
  intros H. unfold is_nan.
  rewrite FloatAxioms.eqb_spec, div_spec, (is_nan_true _ H). reflexivity.
Qed.

(** With an off-track error that is a NaN (see [nan_passes_the_checks])
    the tuning never ends: no call makes the coefficients final, and the
    error alone, however large, never takes the vehicle off the track;
    only a speed below 1 does. *)
Theorem nan_threshold_never_converges
  (c c' : t) (cte speed : float) (out : list event) :
  has_final_coefficients_ c = false ->
  is_nan (off_track_cte_ c) = true ->
  Update c cte speed = Ok (c', out) ->
  has_final_coefficients_ c' = false
  /\ is_nan (off_track_cte_ c') = true
  /\ (off_track_triggered out = true -> (speed <? 1) = true).
Proof.
  intros Hf Hnan Hup.
  destruct (Update_thresholds _ _ _ _ _ Hup) as [_ Hoff].
  rewrite Hoff. split; [|split; [exact Hnan|]].
  - apply Update_paths in Hup as ([] & H); cbv zeta in H.
    + destruct H as (H & _). congruence.
    + now destruct H as (_ & _ & (tw' & kp & ki & kd & ->) & _).
    + destruct H as (_ & _ & _ & Hmax & _).
      rewrite Measure_off_track_cte in Hmax.
      now rewrite (ltb_nan_r _ _ (div_nan _ 2 Hnan)) in Hmax.
    + now destruct H as (_ & _ & _ & _ & (tw' & kp & ki & kd & ->) & _).
    + destruct H as (_ & _ & _ & -> & _). cbn.
      now rewrite Measure_has_final_coefficients.
  - intros Htrig.
    apply Update_paths in Hup as ([] & H); cbv zeta in H.
    + destruct H as (_ & _ & ->). discriminate.
    + destruct H as (_ & HO & _). unfold OffTrack in HO.
      rewrite Measure_off_track_cte, (ltb_nan _ _ Hnan) in HO.
      now apply andb_prop in HO as [_ HO].
    + destruct H as (_ & _ & _ & _ & _ & _ & H & _). congruence.
    + destruct H as (_ & _ & _ & _ & _ & _ & H & _). congruence.
    + destruct H as (_ & _ & _ & _ & _ & H & _). congruence.
Qed.

End NanThreshold.

(** ** The handler of the messages, main.cpp lines 182-211 *)

Section HandlerFacts.
Import PidController Server.
#[local] Open Scope string_scope.

Variable json_event : string -> option string.
Variable json_field : string -> string -> option string.
Variable stod : string -> option float.
Variable json_dump : float -> float -> string.

#[local] Abbreviation OnMessage := (OnMessage json_event json_field stod json_dump).
#[local] Abbreviation stod_field := (stod_field json_field stod).
#[local] Abbreviation sent := (sent json_dump).
#[local] Abbreviation ControlSimulator := (ControlSimulator json_dump).

(** What is printed is not sent. *)
Lemma sent_callbacks (out : list event) : sent out = sent (callbacks out).
Proof.
  unfold Server.sent, callbacks.
  induction out as [|[m|steering throttle|] out IH]; simpl;
    now rewrite ?IH.
Qed.

(** A call of Update sends one message: the reset, or the steering. *)
Lemma sent_Update (c c' : t) (cte speed : float) (out : list event) :
  Update c cte speed = Ok (c', out) ->
  sent out = [ResetSimulator]
  \/ exists steering throttle, sent out = [ControlSimulator steering throttle].
Proof.
  intros Hup. rewrite sent_callbacks.
  destruct (Update_callbacks _ _ _ _ _ Hup) as [-> | ->];
    [now left|right; now eexists _, _].
Qed.

(** The handler on a message that begins with "42" and goes on. *)
Lemma OnMessage_42 (c : t) (a : ascii) (rest : string) :
  OnMessage c (String "4" (String "2" (String a rest)))
  = let s :=
      GetJsonData (c_string (String "4" (String "2" (String a rest)))) in
    if negb (String.eqb s "") then
      match json_event s with
      | None => Uncaught
      | Some event =>
          if String.eqb event "telemetry" then
            match stod_field s "cte" with
            | None => Uncaught
            | Some cte =>
                match stod_field s "speed" with
                | None => Uncaught
                | Some speed =>
                    match stod_field s "steering_angle" with
                    | None => Uncaught
                    | Some angle =>
                        match Update c cte speed with
                        | Ok (c, out) => Handled c (sent out)
                        | Fault f => Stopped f
                        end
                    end
                end
            end
          else Handled c []
      end
    else Handled c [manual].
Proof. reflexivity. Qed.

(** Only telemetry advances the controller.  A message that is handled
    gets at most one reply.  Either the controller is left as it was,
    with no reply or the reply for manual driving; or the data of the
    message, taken from its characters before the first character 0, is
    a telemetry event and the controller has made one call of Update
    with the cte and the speed read from it, and the reply is what that
    call sends. *)
Theorem only_telemetry_advances
  (c c' : t) (data : string) (replies : list string) :
  OnMessage c data = Handled c' replies ->
  (length replies <= 1)%nat
  /\ ((c' = c /\ (replies = [] \/ replies = [manual]))
      \/ (exists cte speed out,
            json_event (GetJsonData (c_string data)) = Some "telemetry"
            /\ stod_field (GetJsonData (c_string data)) "cte" = Some cte
            /\ stod_field (GetJsonData (c_string data)) "speed" = Some speed
            /\ Update c cte speed = Ok (c', out)
            /\ replies = sent out)).
Proof.
  unfold Server.OnMessage.
  destruct (_ && _).
  2: { intros [= <- <-]. split; [cbn; lia|]. left. auto. }
  cbv zeta. destruct (negb _).
  2: { intros [= <- <-]. split; [cbn; lia|]. left. auto. }
  destruct (json_event _) as [event|] eqn:Hev; [|discriminate].
  destruct (String.eqb_spec event "telemetry") as [->|_].
  2: { intros [= <- <-]. split; [cbn; lia|]. left. auto. }
  destruct (stod_field _ "cte") as [cte|] eqn:Hcte; [|discriminate].
  destruct (stod_field _ "speed") as [speed|] eqn:Hspeed; [|discriminate].
  destruct (stod_field _ "steering_angle") as [angle|]; [|discriminate].
  destruct (Update c cte speed) as [[c1 out]|] eqn:Hup; [|discriminate].
  intros [= <- <-]. split.
  - destruct (sent_Update _ _ _ _ _ Hup) as [-> | (s & th & ->)];
      cbn; lia.
  - right. now exists cte, speed, out.
Qed.

(** A telemetry event gets its reply.  For a controller built by a
    constructor, a message "42..." whose data, taken from its characters
    before the first character 0, is a telemetry event with a cte, a
    speed and a steering angle that [std::stod] reads gets exactly one
    reply, the reset or a steering command, and the controller stays one
    the handler can use. *)
Theorem telemetry_gets_one_reply
  (c : t) (a : ascii) (rest : string) (cte speed angle : float) :
  reachable c ->
  let data := String "4" (String "2" (String a rest)) in
  GetJsonData (c_string data) <> "" ->
  json_event (GetJsonData (c_string data)) = Some "telemetry" ->
  stod_field (GetJsonData (c_string data)) "cte" = Some cte ->
  stod_field (GetJsonData (c_string data)) "speed" = Some speed ->
  stod_field (GetJsonData (c_string data)) "steering_angle" = Some angle ->
  exists c' reply,
    OnMessage c data = Handled c' [reply]
    /\ reachable c'
    /\ (reply = ResetSimulator
        \/ exists steering throttle,
             reply = ControlSimulator steering throttle).
Proof.
  intros Hr data Hdata Hev Hcte Hspeed Hangle.
  unfold data. rewrite OnMessage_42. cbv zeta. fold data.
  apply String.eqb_neq in Hdata. rewrite Hdata, Hev, Hcte, Hspeed, Hangle.
  cbn [negb]. rewrite ?String.eqb_refl. cbv iota.
  destruct (Update_outcome c cte speed (reachable_tuner_ready c Hr))
    as (c' & out & Hup & _).
  rewrite Hup.
  pose proof (reachable_update _ _ _ _ _ Hr Hup) as Hr'.
  destruct (sent_Update _ _ _ _ _ Hup) as [-> | (s & th & ->)].
  - exists c', ResetSimulator. auto.
  - exists c', (ControlSimulator s th).
    split; [reflexivity|]. split; [exact Hr'|]. right. now exists s, th.
Qed.

(** A message "42..." without data is answered by the message for manual
    driving, and the controller is not touched: when, among the
    characters before the first character 0, "null" occurs anywhere, or
    there is no "[", or no "]".  A message "42" followed by the character
    0 is such a message, whatever comes after. *)
Theorem no_data_means_manual (c : t) (a : ascii) (rest : string) :
  let data := String "4" (String "2" (String a rest)) in
  (String.index 0 "null" (c_string data) <> None
   \/ find_first_of "[" (c_string data) = None
   \/ find_last_of "]" (c_string data) = None
   -> OnMessage c data = Handled c [manual])
  /\ (a = Ascii.zero -> OnMessage c data = Handled c [manual]).
Proof.
  intros data.
  assert (Hmanual : GetJsonData (c_string data) = "" ->
                    OnMessage c data = Handled c [manual]).
  { intros Hempty. unfold data. rewrite OnMessage_42. cbv zeta. fold data.
    now rewrite Hempty. }
  split.
  - intros H. apply Hmanual. unfold GetJsonData.
    destruct (String.index 0 "null" (c_string data)); [reflexivity|].
    destruct H as [H|[-> | H]]; [congruence|reflexivity|].
    rewrite H. now destruct (find_first_of "[" (c_string data)).
  - intros ->. apply Hmanual. reflexivity.
Qed.

End HandlerFacts.

(** ** The further properties at work *)

Section MoreTests.
#[local] Open Scope float_scope.
Import PidController Examples MoreExamples.

(** A value above the range and one below it, by
    [NormalizeControl_clamps]. *)
Lemma NormalizeControl_clamps_witness :
  (1 <? 3) = true
  /\ NormalizeControl 3 = 1
  /\ (-3 <? -1) = true
  /\ NormalizeControl (-3) = -1
  /\ NormalizeControl (NormalizeControl 3) = NormalizeControl 3.
Proof.
  destruct (NormalizeControl_clamps 3) as (Habove & _ & _ & _ & _ & Hidem).
  destruct (NormalizeControl_clamps (-3)) as (_ & Hbelow & _).
  split; [reflexivity|]. split; [exact (Habove eq_refl)|].
  split; [reflexivity|]. split; [exact (Hbelow eq_refl)|exact Hidem].
Defined.

(** The five frames of the tests, by [every_frame_is_answered]. *)
Lemma every_frame_is_answered_witness :
  reachable tested
  /\ exists c' out,
       Run tested five_frames = Ok (c', out)
       /\ length (callbacks out) = 5%nat.
Proof.
  split; [apply reachable_tuning|].
  destruct (every_frame_is_answered tested five_frames
              (reachable_tuning 0.1 1e-4 4.0 0.01 1e-5 0.1 10 5.0))
    as (c' & out & Hrun & _ & Hlen).
  exists c', out. split; [exact Hrun|exact Hlen].
Defined.

(** The lap of 28 frames, by [thresholds_are_kept]. *)
Lemma thresholds_are_kept_witness :
  Run tuning50 lap = Ok after_lap
  /\ track_length_ (fst after_lap) = 50
  /\ off_track_cte_ (fst after_lap) = 5.
Proof.
  assert (Hrun : Run tuning50 lap = Ok (fst after_lap, snd after_lap))
    by (vm_compute; reflexivity).
  split; [exact Hrun|].
  exact (thresholds_are_kept tuning50 _ lap _ Hrun).
Defined.

(** The sixth frame of the off-track test, by
    [callback_tells_the_state]. *)
Lemma callback_tells_the_state_witness :
  Update after_five_frames 5.01 100 = Ok sixth_frame_off
  /\ callbacks (snd sixth_frame_off) = [OnReset]
  /\ distance_ (fst sixth_frame_off) = 0
  /\ time_ (fst sixth_frame_off) = 0
  /\ max_cte_ (fst sixth_frame_off) = 0.
Proof.
  assert (Hup : Update after_five_frames 5.01 100
                = Ok (fst sixth_frame_off, snd sixth_frame_off))
    by (vm_compute; reflexivity).
  split; [exact Hup|]. split; [reflexivity|].
  destruct (proj1 (callback_tells_the_state after_five_frames
                     (fst sixth_frame_off) 5.01 100 (snd sixth_frame_off) Hup)
              eq_refl)
    as (_ & _ & Hd & Ht & Hm & _).
  auto.
Defined.

(** The first frame of the tests, by [no_episode_ends_early]. *)
Lemma no_episode_ends_early_witness :
  (5 <? distance_ tested + kSpeedToDistanceCoeff * 100) = false
  /\ (track_length_ tested <? distance_ tested + kSpeedToDistanceCoeff * 100)
     = false
  /\ exists c' out,
       Update tested 4.99 100 = Ok (c', out)
       /\ twiddler_ c' = twiddler_ tested
       /\ callbacks out = [OnControl (-1) (-1)].
Proof.
  split; [reflexivity|]. split; [reflexivity|].
  destruct (no_episode_ends_early tested 4.99 100 eq_refl eq_refl eq_refl)
    as (out & Hup & Hcb).
  eexists _, out. split; [exact Hup|]. split; [reflexivity|exact Hcb].
Defined.

(** The last frame of the lap, by [final_only_by_completion]. *)
Lemma final_only_by_completion_witness :
  has_final_coefficients_ before_finish = false
  /\ Update before_finish 1 100 = Ok finish
  /\ has_final_coefficients_ (fst finish) = true
  /\ completion_triggered (snd finish) = true
  /\ twiddler_ (fst finish) = twiddler_ before_finish.
Proof.
  assert (Hup : Update before_finish 1 100 = Ok (fst finish, snd finish))
    by (vm_compute; reflexivity).
  split; [reflexivity|]. split; [exact Hup|]. split; [reflexivity|].
  destruct (final_only_by_completion before_finish (fst finish) 1 100
              (snd finish) eq_refl Hup eq_refl)
    as (Hc & _ & _ & _ & _ & _ & Htw & _).
  split; [exact Hc|exact Htw].
Defined.

(** The first frame of the tests, by [max_cte_bounds_the_frame]. *)
Lemma max_cte_bounds_the_frame_witness :
  Update tested 4.99 100 = Ok first_frame
  /\ callbacks (snd first_frame) = [OnControl (-1) (-1)]
  /\ (track_length_ tested * 0.025 <? distance_ (fst first_frame)) = true
  /\ (max_cte_ (fst first_frame) <? 4.99) = false.
Proof.
  assert (Hup : Update tested 4.99 100 = Ok (fst first_frame, snd first_frame))
    by (vm_compute; reflexivity).
  split; [exact Hup|]. split; [reflexivity|]. split; [reflexivity|].
  exact (proj1 (max_cte_bounds_the_frame tested (fst first_frame) 4.99 100
                  (snd first_frame) (-1) (-1) eq_refl Hup eq_refl eq_refl)).
Defined.

(** A controller whose threshold is a NaN, more than 5 m into the
    episode and 100 units off the centre line, by
    [nan_threshold_never_converges]. *)
Lemma nan_threshold_never_converges_witness :
  is_nan (off_track_cte_ tuning_nan_past_5m) = true
  /\ (5 <? distance_ tuning_nan_past_5m) = true
  /\ Update tuning_nan_past_5m 100 100 = Ok far_frame_past_5m
  /\ has_final_coefficients_ (fst far_frame_past_5m) = false
  /\ off_track_triggered (snd far_frame_past_5m) = false.
Proof.
  assert (Hup : Update tuning_nan_past_5m 100 100
                = Ok (fst far_frame_past_5m, snd far_frame_past_5m))
    by (vm_compute; reflexivity).
  split; [reflexivity|]. split; [reflexivity|]. split; [exact Hup|].
  destruct (nan_threshold_never_converges tuning_nan_past_5m
              (fst far_frame_past_5m) 100 100 (snd far_frame_past_5m)
              eq_refl eq_refl Hup)
    as (Hf & _).
  split; [exact Hf|reflexivity].
Defined.

(** Two arguments, by [argument_count_is_checked]. *)
Lemma argument_count_is_checked_witness :
  Main.CreatePidController Main.stod_examples argv_two
  = inl Main.UsageInstructions.
Proof.
  apply (proj1 (argument_count_is_checked Main.stod_examples argv_two)).
  repeat split; discriminate.
Defined.

(** The command line of a tuning run, by
    [valid_arguments_are_accepted]. *)
Lemma valid_arguments_are_accepted_witness :
  Main.CreatePidController Main.stod_examples argv_tuning
  = inr (Main.Construct8 0.2 0.01 4 5 0.01 0.01 0.1 50).
Proof.
  exact (proj1 (valid_arguments_are_accepted Main.stod_examples argv_tuning)
           0.2 0.01 4 5 0.01 0.01 0.1 50
           eq_refl eq_refl eq_refl eq_refl eq_refl eq_refl eq_refl eq_refl
           eq_refl eq_refl eq_refl).
Defined.

(** An off-track error "nan", by [nan_passes_the_checks]. *)
Lemma nan_passes_the_checks_witness :
  Main.CreatePidController stod_nan argv_nan
  = inr (Main.Construct4 0.2 0.01 4 nan).
Proof.
  exact (proj1 (nan_passes_the_checks stod_nan argv_nan) 0.2 0.01 4 nan
           eq_refl eq_refl eq_refl eq_refl eq_refl eq_refl).
Defined.

End MoreTests.

Section ServerTests.
Import PidController Server.
#[local] Open Scope string_scope.

(** A message with data, by [GetJsonData_brackets]. *)
Lemma GetJsonData_brackets_witness :
  GetJsonData "42[a,{b}]" = "[a,{b}]"
  /\ String.length (GetJsonData "42[a,{b}]") = 7%nat.
Proof.
  destruct (GetJsonData_brackets "42[a,{b}]" 2 8
              eq_refl eq_refl eq_refl eq_refl ltac:(lia))
    as (Heq & Hlen & _).
  split; [exact Heq|exact Hlen].
Defined.

(** Brackets the wrong way round, by [GetJsonData_wraps]. *)
Lemma GetJsonData_wraps_witness : GetJsonData "]x[yz" = "[yz".
Proof.
  exact (proj1 (GetJsonData_wraps "]x[yz" 2 0
                  eq_refl eq_refl eq_refl eq_refl ltac:(lia))).
Defined.

(** A "]" right before a "[", by [GetJsonData_empty_iff]. *)
Lemma GetJsonData_empty_iff_witness : GetJsonData "a][b" = "".
Proof.
  apply (proj2 (GetJsonData_empty_iff "a][b" eq_refl)).
  do 3 right. now exists 1%nat.
Defined.

(** A telemetry event for the toy decoder, followed by a character 0
    and more, by [only_telemetry_advances]. *)
Lemma only_telemetry_advances_witness :
  c_string message_t = "42[t]"
  /\ exists c' reply,
       OnMessage toy_event toy_field toy_stod toy_dump Examples.tested
         message_t
       = Handled c' [reply]
       /\ exists out, Update Examples.tested 0.5 30 = Ok (c', out).
Proof.
  split; [reflexivity|].
  eexists _, _. split; [vm_compute; reflexivity|].
  destruct (only_telemetry_advances toy_event toy_field toy_stod toy_dump
              Examples.tested _ message_t _ eq_refl)
    as (_ & [(Hc & _)|(cte & speed & out & _ & Hcte & Hspeed & Hup & _)]).
  - vm_compute in Hc. discriminate Hc.
  - injection Hcte as <-. injection Hspeed as <-. now exists out.
Defined.

(** The same event, by [telemetry_gets_one_reply]. *)
Lemma telemetry_gets_one_reply_witness :
  GetJsonData (c_string message_t) <> ""
  /\ exists c' reply,
       OnMessage toy_event toy_field toy_stod toy_dump Examples.tested
         message_t
       = Handled c' [reply]
       /\ reachable c'.
Proof.
  assert (Hdata : GetJsonData (c_string message_t) <> "") by discriminate.
  split; [exact Hdata|].
  destruct (telemetry_gets_one_reply toy_event toy_field toy_stod toy_dump
              Examples.tested "[" (String.append "t]" after_zero)
              0.5%float 30%float 0%float
              (reachable_tuning _ _ _ _ _ _ _ _)
              Hdata eq_refl eq_refl eq_refl eq_refl)
    as (c' & reply & Hmsg & Hr & _).
  exists c', reply. split; [exact Hmsg|exact Hr].
Defined.

(** The message of the simulator in manual mode, and a message cut
    short by a character 0, by [no_data_means_manual]. *)
Lemma no_data_means_manual_witness :
  OnMessage toy_event toy_field toy_stod toy_dump Examples.tested
    "42[telemetry,null]"
  = Handled Examples.tested [manual]
  /\ OnMessage toy_event toy_field toy_stod toy_dump Examples.tested
       (String.append "42" (String.append after_zero "[t]"))
     = Handled Examples.tested [manual].
Proof.
  split.
  - apply (proj1 (no_data_means_manual toy_event toy_field toy_stod toy_dump
                    Examples.tested "[" "telemetry,null]")).
    left. discriminate.
  - exact (proj2 (no_data_means_manual toy_event toy_field toy_stod toy_dump
                    Examples.tested Ascii.zero "null[t]") eq_refl).
Defined.

End ServerTests.
